(** * A shallow embedding of the movie recommender's ingestion pipeline

    The development follows the Python sources of
    [projects/03-ai-movie-recommender]:

    - [pipeline/pipeline.py]   (module [Pipeline]):    [AnimeIngestionPipeline]
    - [data/data_loader.py]    (module [DataLoader]):  [AnimeDataLoader]
    - [src/vector_store.py]    (module [VectorStore]): [AnimeVectorStore]
    - [src/recommender.py]     (module [Recommender]): [AnimeRecommender]

    Python methods that mutate [self] or the file system and may raise are
    written in a state-and-exception monad [M S A := S -> Result A * S]:
    the state survives a raised exception, as attribute assignments and
    files do in Python.  What third-party libraries compute (the text
    splitter, the numeric parsers of pandas and of Python, the printing of
    floats) is taken as section variables, so the general theorems hold for
    whatever those libraries do. *)

From Stdlib Require Import Ascii QArith.
From stdpp Require Import gmap strings list.

(** ** Exceptions and results *)

Inductive ExnClass :=
  | FileNotFoundError
  | ValueError
  | AttributeError
  | ChromaError.

Record Exn := mkExn { exn_class : ExnClass; exn_msg : string }.

(** [str(e)] *)
Definition str_exn (e : Exn) : string := exn_msg e.

Inductive Result (A : Type) :=
  | Ok (a : A)
  | Raise (e : Exn).
Arguments Ok {A} a.
Arguments Raise {A} e.

(** ** The state-and-exception monad *)

Definition M (S A : Type) : Type := S -> Result A * S.

Definition ret {S A} (a : A) : M S A := fun s => (Ok a, s).

Definition bind {S A B} (m : M S A) (k : A -> M S B) : M S B :=
  fun s => match m s with
           | (Ok a, s') => k a s'
           | (Raise e, s') => (Raise e, s')
           end.

Definition raise {S A} (e : Exn) : M S A := fun s => (Raise e, s).

(** [try: body / except Exception as e: handler e] *)
Definition try_except {S A} (body : M S A) (handler : Exn -> M S A) : M S A :=
  fun s => match body s with
           | (Ok a, s') => (Ok a, s')
           | (Raise e, s') => handler e s'
           end.

Definition gets {S A} (f : S -> A) : M S A := fun s => (Ok (f s), s).
Definition modify {S} (f : S -> S) : M S unit := fun s => (Ok tt, f s).

Notation "x <- m ;; k" := (bind m (fun x => k))
  (at level 100, m at next level, right associativity).
Notation "m ;;; k" := (bind m (fun _ => k))
  (at level 100, right associativity).

(** ** Python strings

    Strings are byte strings read as ASCII text. *)

Definition in_range (lo hi : nat) (a : ascii) : bool :=
  Nat.leb lo (nat_of_ascii a) && Nat.leb (nat_of_ascii a) hi.

(** What [str.split], [str.strip] and the regular expression [\s] take
    for white space. *)
Definition is_space (a : ascii) : bool :=
  in_range 9 13 a || in_range 28 32 a.

Definition is_digit (a : ascii) : bool := in_range 48 57 a.

(** The regular expression [\w]; a byte above 127 belongs to a character
    outside ASCII and is kept as a letter. *)
Definition is_word (a : ascii) : bool :=
  is_digit a || in_range 65 90 a || in_range 97 122 a ||
  Nat.eqb (nat_of_ascii a) 95 || Nat.leb 128 (nat_of_ascii a).

Definition lower_char (a : ascii) : ascii :=
  if in_range 65 90 a then ascii_of_nat (nat_of_ascii a + 32) else a.

Fixpoint string_filter (p : ascii -> bool) (s : string) : string :=
  match s with
  | EmptyString => EmptyString
  | String a s' =>
      if p a then String a (string_filter p s') else string_filter p s'
  end.

Fixpoint string_map (f : ascii -> ascii) (s : string) : string :=
  match s with
  | EmptyString => EmptyString
  | String a s' => String (f a) (string_map f s')
  end.

Fixpoint all_chars (p : ascii -> bool) (s : string) : bool :=
  match s with
  | EmptyString => true
  | String a s' => p a && all_chars p s'
  end.

(** [s.lower()] *)
Definition lower (s : string) : string := string_map lower_char s.

Fixpoint lstrip (s : string) : string :=
  match s with
  | EmptyString => EmptyString
  | String a s' => if is_space a then lstrip s' else s
  end.

Fixpoint rstrip (s : string) : string :=
  match s with
  | EmptyString => EmptyString
  | String a s' =>
      match rstrip s' with
      | EmptyString => if is_space a then EmptyString else String a EmptyString
      | r => String a r
      end
  end.

(** [s.strip()] *)
Definition strip (s : string) : string := rstrip (lstrip s).

(** [sep.join(parts)] *)
Fixpoint join (sep : string) (parts : list string) : string :=
  match parts with
  | [] => ""
  | [p] => p
  | p :: rest => p +:+ sep +:+ join sep rest
  end.

(** [s.split()]: the maximal runs of characters that are not white space.
    [cur] is the run being read, in reverse. *)
Fixpoint split_go (cur : option string) (s : string) : list string :=
  match s with
  | EmptyString => option_list (String.rev <$> cur)
  | String a s' =>
      if is_space a
      then option_list (String.rev <$> cur) ++ split_go None s'
      else split_go (Some (String a (default "" cur))) s'
  end.
Definition split (s : string) : list string := split_go None s.

(** [s.endswith(":")] *)
Fixpoint ends_with_colon (s : string) : bool :=
  match s with
  | EmptyString => false
  | String a EmptyString => Ascii.eqb a ":"
  | String _ s' => ends_with_colon s'
  end.

(** [s[:-1]] *)
Fixpoint drop_last (s : string) : string :=
  match s with
  | EmptyString => EmptyString
  | String _ EmptyString => EmptyString
  | String a s' => String a (drop_last s')
  end.

(** [s[:n]] *)
Fixpoint prefix (n : nat) (s : string) : string :=
  match n, s with
  | S n', String a s' => String a (prefix n' s')
  | _, _ => EmptyString
  end.


(** ** pipeline/pipeline.py *)

Module Pipeline.

(** [self.pipeline_status] *)
Record PipelineStatus := mkStatus {
  data_loading : bool;
  vector_store_creation : bool;
  recommender_initialization : bool;
  overall_status : string
}.

(** The value [__init__] gives it. *)
Definition init_status : PipelineStatus :=
  mkStatus false false false "not_started".

Definition set_data_loading (b : bool) (p : PipelineStatus) :=
  mkStatus b (vector_store_creation p) (recommender_initialization p)
    (overall_status p).
Definition set_vector_store_creation (b : bool) (p : PipelineStatus) :=
  mkStatus (data_loading p) b (recommender_initialization p) (overall_status p).
Definition set_recommender_initialization (b : bool) (p : PipelineStatus) :=
  mkStatus (data_loading p) (vector_store_creation p) b (overall_status p).
Definition set_overall_status (v : string) (p : PipelineStatus) :=
  mkStatus (data_loading p) (vector_store_creation p)
    (recommender_initialization p) v.

(** The three stages, in the order the orchestrator runs them. *)
Inductive Stage := DataLoading | VectorStoreCreation | RecommenderInitialization.

(** The name a stage is given in [steps_completed] and in
    [pipeline_status]. *)
Definition stage_name (k : Stage) : string :=
  match k with
  | DataLoading => "data_loading"
  | VectorStoreCreation => "vector_store_creation"
  | RecommenderInitialization => "recommender_initialization"
  end.

(** The key under which its result is stored in [statistics]. *)
Definition statistics_key (k : Stage) : string :=
  match k with
  | DataLoading => "data_loading"
  | VectorStoreCreation => "vector_store"
  | RecommenderInitialization => "recommender"
  end.

Definition stages_before (k : Stage) : list Stage :=
  match k with
  | DataLoading => []
  | VectorStoreCreation => [DataLoading]
  | RecommenderInitialization => [DataLoading; VectorStoreCreation]
  end.

Definition stages_after (k : Stage) : list Stage :=
  match k with
  | DataLoading => [VectorStoreCreation; RecommenderInitialization]
  | VectorStoreCreation => [RecommenderInitialization]
  | RecommenderInitialization => []
  end.

Definition all_stages : list Stage :=
  [DataLoading; VectorStoreCreation; RecommenderInitialization].

Definition flag (k : Stage) (p : PipelineStatus) : bool :=
  match k with
  | DataLoading => data_loading p
  | VectorStoreCreation => vector_store_creation p
  | RecommenderInitialization => recommender_initialization p
  end.

Section Orchestrator.

(** [Env] is everything a stage touches apart from [pipeline_status]: the
    component objects, the files, the index.  [Stats] is the dictionary a
    stage returns. *)
Variable Env Stats : Type.

(** The statements of each [_run_*_step] that come before its
    ["# Update status"] line. *)
Variable data_loading_body : M Env Stats.
Variable vector_store_body : bool -> M Env Stats.
Variable recommender_body : M Env Stats.

(** The local dictionary [results] of [run_complete_pipeline]. *)
Record Results := mkResults {
  pipeline_status : string;
  steps_completed : list string;
  errors : list string;
  statistics : list (string * Stats)
}.

(** The state a run threads: [self.pipeline_status], the local [results]
    (the handler of [run_complete_pipeline] reads what the [try] block
    wrote to it) and the environment. *)
Record St := mkSt {
  self_status : PipelineStatus;
  results : Results;
  env : Env
}.

Definition set_status (f : PipelineStatus -> PipelineStatus) : M St unit :=
  modify (fun s => mkSt (f (self_status s)) (results s) (env s)).

Definition set_results (f : Results -> Results) : M St unit :=
  modify (fun s => mkSt (self_status s) (f (results s)) (env s)).

Definition on_env {A} (m : M Env A) : M St A :=
  fun s => match m (env s) with
           | (r, e') => (r, mkSt (self_status s) (results s) e')
           end.

Definition _run_data_loading_step : M St Stats :=
  try_except
    (r <- on_env data_loading_body ;;
     set_status (set_data_loading true) ;;;
     ret r)
    (fun e =>
       set_status (set_data_loading false) ;;;
       raise e).

Definition _run_vector_store_step (force_rebuild : bool) : M St Stats :=
  try_except
    (r <- on_env (vector_store_body force_rebuild) ;;
     set_status (set_vector_store_creation true) ;;;
     ret r)
    (fun e =>
       set_status (set_vector_store_creation false) ;;;
       raise e).

Definition _run_recommender_step : M St Stats :=
  try_except
    (r <- on_env recommender_body ;;
     set_status (set_recommender_initialization true) ;;;
     ret r)
    (fun e =>
       set_status (set_recommender_initialization false) ;;;
       raise e).

Definition append_step (name : string) (r : Results) : Results :=
  mkResults (pipeline_status r) (steps_completed r ++ [name]) (errors r)
    (statistics r).
Definition put_statistics (key : string) (v : Stats) (r : Results) : Results :=
  mkResults (pipeline_status r) (steps_completed r) (errors r)
    (statistics r ++ [(key, v)]).
Definition set_pipeline_status (v : string) (r : Results) : Results :=
  mkResults v (steps_completed r) (errors r) (statistics r).
Definition append_error (msg : string) (r : Results) : Results :=
  mkResults (pipeline_status r) (steps_completed r) (errors r ++ [msg])
    (statistics r).

Definition run_complete_pipeline (force_rebuild : bool) : M St Results :=
  try_except
    (set_results (fun _ => mkResults "running" [] [] []) ;;;
     data_results <- _run_data_loading_step ;;
     set_results (append_step "data_loading") ;;;
     set_results (put_statistics "data_loading" data_results) ;;;
     vector_results <- _run_vector_store_step force_rebuild ;;
     set_results (append_step "vector_store_creation") ;;;
     set_results (put_statistics "vector_store" vector_results) ;;;
     recommender_results <- _run_recommender_step ;;
     set_results (append_step "recommender_initialization") ;;;
     set_results (put_statistics "recommender" recommender_results) ;;;
     set_status (set_overall_status "completed") ;;;
     set_results (set_pipeline_status "completed") ;;;
     gets results)
    (fun e =>
       set_results (set_pipeline_status "failed") ;;;
       set_results (append_error (str_exn e)) ;;;
       set_status (set_overall_status "failed") ;;;
       gets results).

(** Stage [k] is the first to raise: run from [e0], the stages before it
    return, and [k] raises [x], leaving the environment [ek]. *)
Definition raises_at (force_rebuild : bool) (k : Stage) (x : Exn)
    (e0 ek : Env) : Prop :=
  match k with
  | DataLoading => data_loading_body e0 = (Raise x, ek)
  | VectorStoreCreation =>
      exists d e1,
        data_loading_body e0 = (Ok d, e1) /\
        vector_store_body force_rebuild e1 = (Raise x, ek)
  | RecommenderInitialization =>
      exists d e1 v e2,
        data_loading_body e0 = (Ok d, e1) /\
        vector_store_body force_rebuild e1 = (Ok v, e2) /\
        recommender_body e2 = (Raise x, ek)
  end.

End Orchestrator.

Arguments mkResults {Stats}.
Arguments pipeline_status {Stats}.
Arguments steps_completed {Stats}.
Arguments errors {Stats}.
Arguments statistics {Stats}.
Arguments mkSt {Env Stats}.
Arguments self_status {Env Stats}.
Arguments results {Env Stats}.
Arguments env {Env Stats}.
Arguments run_complete_pipeline {Env Stats}.
Arguments raises_at {Env Stats}.

End Pipeline.

(** ** data/data_loader.py *)

Module DataLoader.

(** A cell of a table: a missing value, a string, or a number.  Numbers are
    modelled by their rational value. *)
Inductive Cell :=
  | NaN
  | Str (s : string)
  | Num (x : Q).

(** A [pandas.DataFrame]: the ordered column names and the rows, each with
    its index label and its cells by column name. *)
Record DataFrame := mkDF {
  columns : list string;
  rows : list (nat * gmap string Cell)
}.

(** [pd.isna] *)
Definition isna (c : Cell) : bool :=
  match c with NaN => true | _ => false end.

(** [row[col]] *)
Definition cell_of (r : gmap string Cell) (col : string) : Cell :=
  default NaN (r !! col).

(** [df[col]] as the list of its cells *)
Definition get_col (col : string) (df : DataFrame) : list Cell :=
  map (fun r => cell_of r.2 col) (rows df).

(** [col in df.columns] *)
Definition has_col (col : string) (df : DataFrame) : bool :=
  bool_decide (col ∈ columns df).

(** [df[col] = vals]: an existing column keeps its position, a new one is
    appended. *)
Definition set_col (col : string) (vals : list Cell) (df : DataFrame)
    : DataFrame :=
  mkDF (if has_col col df then columns df else columns df ++ [col])
       (zip_with (fun r v => (r.1, <[col := v]> r.2)) (rows df) vals).

(** *** Medians *)

Fixpoint insert_sorted (x : Q) (l : list Q) : list Q :=
  match l with
  | [] => [x]
  | y :: l' => if Qle_bool x y then x :: l else y :: insert_sorted x l'
  end.

Definition sort_values (l : list Q) : list Q := foldr insert_sorted [] l.

(** The numbers of a column, missing values skipped. *)
Definition numeric_values (col : list Cell) : list Q :=
  omap (fun c => match c with Num x => Some x | _ => None end) col.

(** [Series.median()]: missing values are skipped; the median of no value
    at all is NaN. *)
Definition median (col : list Cell) : Cell :=
  let s := sort_values (numeric_values col) in
  let n := length s in
  match n with
  | O => NaN
  | _ =>
      if Nat.odd n
      then Num (nth (n / 2) s 0%Q)
      else Num ((nth (n / 2 - 1) s 0 + nth (n / 2) s 0) / 2)%Q
  end.

(** [Series.fillna(value)] *)
Definition fillna (value : Cell) (col : list Cell) : list Cell :=
  map (fun c => if isna c then value else c) col.

(** *** Column types *)

Inductive DType := Object | Number.

(** A column read from a CSV file is numeric when no cell of it is a
    string. *)
Definition dtype (col : list Cell) : DType :=
  if forallb (fun c => match c with Str _ => false | _ => true end) col
  then Number else Object.

Definition is_object (df : DataFrame) (col : string) : bool :=
  match dtype (get_col col df) with Object => true | Number => false end.

Definition is_number (df : DataFrame) (col : string) : bool :=
  match dtype (get_col col df) with Object => false | Number => true end.

(** *** [_handle_missing_values] *)

Definition _handle_missing_values (df : DataFrame) : DataFrame :=
  let text_columns := filter (fun c => is_object df c = true) (columns df) in
  let numeric_columns := filter (fun c => is_number df c = true) (columns df) in
  let df1 :=
    foldl (fun d col => set_col col (fillna (Str "Unknown") (get_col col d)) d)
      df text_columns in
  foldl (fun d col =>
           set_col col (fillna (median (get_col col d)) (get_col col d)) d)
    df1 numeric_columns.

(** *** [_clean_text] and [_clean_text_columns] *)

(** The characters [re.sub(r'[^\w\s\-.,!?]', '', text)] keeps. *)
Definition keep_char (a : ascii) : bool :=
  is_word a || is_space a ||
  Ascii.eqb a "-" || Ascii.eqb a "." || Ascii.eqb a "," ||
  Ascii.eqb a "!" || Ascii.eqb a "?".

(** [re.sub(r'\s+', ' ', text)]; [in_run] says that the previous character
    was white space. *)
Fixpoint collapse_spaces (in_run : bool) (s : string) : string :=
  match s with
  | EmptyString => EmptyString
  | String a s' =>
      if is_space a
      then if in_run then collapse_spaces true s'
           else String " " (collapse_spaces true s')
      else String a (collapse_spaces false s')
  end.

Definition _clean_text (text : string) : string :=
  if String.eqb text "nan" then "Unknown"
  else
    let text := string_filter keep_char text in
    let text := strip (collapse_spaces false text) in
    let text := lower text in
    if String.eqb text "" then "Unknown" else text.

Section Cleaning.

(** [str(x)] for a number [x]. *)
Variable str_num : Q -> string.

(** What [pd.to_numeric(..., errors='coerce')] makes of a string: its
    number, or nothing when it is not a numeral. *)
Variable to_numeric_str : string -> option Q.

(** [str(cell)], also what [astype(str)] does to a cell. *)
Definition str_cell (c : Cell) : string :=
  match c with
  | NaN => "nan"
  | Str s => s
  | Num x => str_num x
  end.

Definition _clean_text_columns (df : DataFrame) : DataFrame :=
  let text_columns := ["title"; "genre"; "description"; "director"; "cast"] in
  foldl (fun d col =>
           if has_col col d
           then
             let d := set_col col (map (fun c => Str (str_cell c)) (get_col col d)) d in
             set_col col
               (map (fun c => Str (_clean_text (str_cell c))) (get_col col d)) d
           else d)
    df text_columns.

(** *** [_extract_numerical_features] *)

Definition year_group (s : string) : option string :=
  match s with
  | String a (String b (String c (String d (String p _)))) =>
      if is_digit a && is_digit b && is_digit c && is_digit d && Ascii.eqb p ")"
      then Some (String a (String b (String c (String d EmptyString))))
      else None
  | _ => None
  end.

(** The group of the first match of [r'\((\d{4})\)'] in [s]. *)
Fixpoint extract_year (s : string) : option string :=
  match s with
  | EmptyString => None
  | String a s' =>
      match (if Ascii.eqb a "(" then year_group s' else None) with
      | Some y => Some y
      | None => extract_year s'
      end
  end.

(** [Series.str.extract(r'\((\d{4})\)')] on one cell *)
Definition str_extract_year (c : Cell) : Cell :=
  match c with
  | Str s => match extract_year s with Some y => Str y | None => NaN end
  | _ => NaN
  end.

(** [pd.to_numeric(..., errors='coerce')] on one cell *)
Definition to_numeric (c : Cell) : Cell :=
  match c with
  | NaN => NaN
  | Num x => Num x
  | Str s => match to_numeric_str s with Some x => Num x | None => NaN end
  end.

(** The three statements the source repeats for a numeric column:
    coerce, take the median of what was coerced, fill. *)
Definition coerce_and_fill (col : string) (df : DataFrame) : DataFrame :=
  let df := set_col col (map to_numeric (get_col col df)) df in
  set_col col (fillna (median (get_col col df)) (get_col col df)) df.

Definition _extract_numerical_features (df : DataFrame) : DataFrame :=
  let df :=
    if has_col "title" df
    then
      let df := set_col "year" (map str_extract_year (get_col "title" df)) df in
      coerce_and_fill "year" df
    else df in
  let df := if has_col "rating" df then coerce_and_fill "rating" df else df in
  if has_col "votes" df then coerce_and_fill "votes" df else df.

(** The first three steps of [clean_data]. *)
Definition clean_numeric (df : DataFrame) : DataFrame :=
  _extract_numerical_features (_clean_text_columns (_handle_missing_values df)).

(** *** [_create_combined_info_column] *)

(** The text of one row: ["col: value"] for every column to combine whose
    cell is present and not blank, joined by single spaces. *)
Definition combined_info (columns_to_combine : list string)
    (row : gmap string Cell) : string :=
  join " "
    (map (fun col => col +:+ ": " +:+ str_cell (cell_of row col))
       (filter (fun col =>
                  negb (isna (cell_of row col)) &&
                  negb (String.eqb (strip (str_cell (cell_of row col))) "") = true)
          columns_to_combine)).


End Cleaning.

(** A character other than the opening parenthesis. *)
Definition not_paren (a : ascii) : bool := negb (Ascii.eqb a "(").

(** *** [_remove_duplicates] *)

(** Equality of two cells as [drop_duplicates] sees it: missing values are
    equal to each other, numbers are compared by value. *)
Definition cell_eqb (c d : Cell) : bool :=
  match c, d with
  | NaN, NaN => true
  | Str s, Str t => String.eqb s t
  | Num x, Num y => Qeq_bool x y
  | _, _ => false
  end.

Fixpoint key_eqb (k l : list Cell) : bool :=
  match k, l with
  | [], [] => true
  | c :: k', d :: l' => cell_eqb c d && key_eqb k' l'
  | _, _ => false
  end.

(** The cells of a row in the columns of [subset]. *)
Definition row_key (subset : list string) (r : nat * gmap string Cell)
    : list Cell :=
  map (cell_of r.2) subset.

(** [drop_duplicates(subset=subset)] with its default [keep='first']: a row
    is dropped when a row before it has the same key.  [seen] holds the
    keys of the rows before. *)
Fixpoint drop_duplicates_from (subset : list string) (seen : list (list Cell))
    (rs : list (nat * gmap string Cell)) : list (nat * gmap string Cell) :=
  match rs with
  | [] => []
  | r :: rs' =>
      if existsb (key_eqb (row_key subset r)) seen
      then drop_duplicates_from subset (row_key subset r :: seen) rs'
      else r :: drop_duplicates_from subset (row_key subset r :: seen) rs'
  end.

Definition drop_duplicates (subset : list string) (df : DataFrame) : DataFrame :=
  mkDF (columns df) (drop_duplicates_from subset [] (rows df)).

Definition key_columns (df : DataFrame) : list string :=
  filter (fun col => col ≠ "genre_list") (columns df).

Definition _remove_duplicates (df : DataFrame) : DataFrame :=
  drop_duplicates (key_columns df) df.

(** [len(df)] *)
Definition len (df : DataFrame) : nat := length (rows df).

(** A list of rows is free of exact duplicates on [subset] when no row has
    the key of a row before it. *)
Fixpoint distinct_keys (subset : list string)
    (rs : list (nat * gmap string Cell)) : bool :=
  match rs with
  | [] => true
  | r :: rs' =>
      forallb (fun r' => negb (key_eqb (row_key subset r') (row_key subset r))) rs'
      && distinct_keys subset rs'
  end.

(** The row at position [i] is the first with its key. *)
Definition first_occurrence (subset : list string)
    (rs : list (nat * gmap string Cell)) (i : nat) : bool :=
  match rs !! i with
  | Some r =>
      forallb (fun r' => negb (key_eqb (row_key subset r) (row_key subset r')))
        (take i rs)
  | None => false
  end.

(** The rows of [rs] at the positions [i + start] that satisfy [keep]. *)
Fixpoint rows_at (keep : nat -> bool) (start : nat)
    (rs : list (nat * gmap string Cell)) : list (nat * gmap string Cell) :=
  match rs with
  | [] => []
  | r :: rs' =>
      if keep start then r :: rows_at keep (S start) rs'
      else rows_at keep (S start) rs'
  end.

End DataLoader.

(** ** src/vector_store.py *)

Module VectorStore.

(** The embedding provider objects. *)
Inductive Embeddings :=
  | OpenAIEmbeddings (openai_api_key : string)
  | HuggingFaceEmbeddings.

(** The length of the vectors of each provider's model:
    [text-embedding-ada-002] and [sentence-transformers/all-MiniLM-L6-v2]. *)
Definition dimension (e : Embeddings) : nat :=
  match e with
  | OpenAIEmbeddings _ => 1536
  | HuggingFaceEmbeddings => 384
  end.

(** A LangChain [Document]; of its metadata only [anime_id] varies. *)
Record Document := mkDocument {
  page_content : string;
  anime_id : nat
}.

(** An entry of the persisted collection: a chunk and the provider that
    embedded it. *)
Record Entry := mkEntry {
  entry_document : Document;
  embedded_by : Embeddings
}.

(** The persist directory as the code can find it. *)
Inductive PersistDir :=
  | NoDirectory
  | EmptyDirectory
  | Index (metadata : option (gmap string string)) (entries : list Entry)
  | Corrupt.

(** What lies outside the object: the CSV file at [csv_path] (each row's
    [combined_info] text, or nothing where the cell holds no string), the
    directory at [persist_directory], and the configured credential. *)
Record World := mkWorld {
  csv_file : option (list (option string));
  persist_dir : PersistDir;
  OPENAI_API_KEY : option string
}.

(** The handle [Chroma(...)] returns; the collection itself lives in the
    persist directory. *)
Record Chroma := mkChroma {
  embedding_function : Embeddings
}.

Record TextSplitter := mkTextSplitter {
  splitter_chunk_size : nat;
  splitter_chunk_overlap : nat
}.

Record AnimeVectorStore := mkStore {
  embedding_model : string;
  chunk_size : nat;
  chunk_overlap : nat;
  embeddings : option Embeddings;
  vector_store : option Chroma;
  text_splitter : option TextSplitter
}.

(** The attributes [__init__] sets. *)
Definition new_store (embedding_model : string) (chunk_size chunk_overlap : nat)
    : AnimeVectorStore :=
  mkStore embedding_model chunk_size chunk_overlap None None None.

(** [os.makedirs(persist_directory, exist_ok=True)] *)
Definition makedirs (d : PersistDir) : PersistDir :=
  match d with NoDirectory => EmptyDirectory | _ => d end.

(** The world with another content of the persist directory. *)
Definition with_dir (d : PersistDir) (w : World) : World :=
  mkWorld (csv_file w) d (OPENAI_API_KEY w).

Record St := mkSt {
  self : AnimeVectorStore;
  world : World
}.

(** [AnimeVectorStore(embedding_model=..., chunk_size=..., chunk_overlap=...)]:
    the new object, and the persist directory created if there was none. *)
Definition __init__ (embedding_model : string) (chunk_size chunk_overlap : nat)
    (w : World) : St :=
  mkSt (new_store embedding_model chunk_size chunk_overlap)
    (with_dir (makedirs (persist_dir w)) w).

Definition set_self (f : AnimeVectorStore -> AnimeVectorStore) : M St unit :=
  modify (fun s => mkSt (f (self s)) (world s)).

Definition set_persist_dir (f : PersistDir -> PersistDir) : M St unit :=
  modify (fun s =>
    mkSt (self s)
      (mkWorld (csv_file (world s)) (f (persist_dir (world s)))
         (OPENAI_API_KEY (world s)))).

Definition set_embedding_model (v : string) (o : AnimeVectorStore) :=
  mkStore v (chunk_size o) (chunk_overlap o) (embeddings o) (vector_store o)
    (text_splitter o).
Definition set_embeddings (v : option Embeddings) (o : AnimeVectorStore) :=
  mkStore (embedding_model o) (chunk_size o) (chunk_overlap o) v
    (vector_store o) (text_splitter o).
Definition set_vector_store (v : option Chroma) (o : AnimeVectorStore) :=
  mkStore (embedding_model o) (chunk_size o) (chunk_overlap o) (embeddings o)
    v (text_splitter o).
Definition set_text_splitter (v : option TextSplitter) (o : AnimeVectorStore) :=
  mkStore (embedding_model o) (chunk_size o) (chunk_overlap o) (embeddings o)
    (vector_store o) v.

(** [os.path.exists(self.persist_directory)] *)
Definition dir_exists (d : PersistDir) : bool :=
  match d with NoDirectory => false | _ => true end.

(** [os.listdir(self.persist_directory)] is not empty *)
Definition dir_has_data (d : PersistDir) : bool :=
  match d with Index _ _ | Corrupt => true | _ => false end.

(** [not OPENAI_API_KEY] *)
Definition key_missing (k : option string) : bool :=
  match k with
  | None => true
  | Some k => String.eqb k ""
  end.

Definition load_csv_data : M St (list (option string)) :=
  try_except
    (f <- gets (fun s => csv_file (world s)) ;;
     match f with
     | None => raise (mkExn FileNotFoundError "CSV file not found")
     | Some df => ret df
     end)
    (fun e => raise e).

Definition initialize_embeddings : M St unit :=
  try_except
    (model <- gets (fun s => embedding_model (self s)) ;;
     key <- gets (fun s => OPENAI_API_KEY (world s)) ;;
     (if String.eqb model "openai"
      then if key_missing key
           then set_self (set_embedding_model "huggingface")
           else set_self (set_embeddings
                            (Some (OpenAIEmbeddings (default "" key))))
      else ret tt) ;;;
     model <- gets (fun s => embedding_model (self s)) ;;
     (if String.eqb model "huggingface"
      then set_self (set_embeddings (Some HuggingFaceEmbeddings))
      else ret tt) ;;;
     e <- gets (fun s => embeddings (self s)) ;;
     match e with
     | None => raise (mkExn ValueError "Unsupported embedding model")
     | Some _ => ret tt
     end)
    (fun e => raise e).

(** [if self.embeddings is None: self.initialize_embeddings()] *)
Definition ensure_embeddings : M St unit :=
  e <- gets (fun s => embeddings (self s)) ;;
  match e with
  | None => initialize_embeddings
  | Some _ => ret tt
  end.

(** [RecursiveCharacterTextSplitter(chunk_size=..., chunk_overlap=...)]:
    the constructor rejects an overlap larger than the chunk size and a
    chunk size that is not positive. *)
Definition create_text_splitter : M St unit :=
  try_except
    (size <- gets (fun s => chunk_size (self s)) ;;
     overlap <- gets (fun s => chunk_overlap (self s)) ;;
     if Nat.ltb 0 size && Nat.leb overlap size
     then set_self (set_text_splitter (Some (mkTextSplitter size overlap)))
     else raise (mkExn ValueError "Got a larger chunk overlap than chunk size"))
    (fun e => raise e).

(** [if self.text_splitter is None: self.create_text_splitter()] *)
Definition ensure_text_splitter : M St unit :=
  ts <- gets (fun s => text_splitter (self s)) ;;
  match ts with
  | None => create_text_splitter
  | Some _ => ret tt
  end.

(** [create_documents]: one document per row, numbered by the row's
    position; a row whose cell is no string makes [Document(...)] raise
    and is skipped with a warning. *)
Fixpoint documents_from (idx : nat) (df : list (option string)) : list Document :=
  match df with
  | [] => []
  | Some text :: df' => mkDocument text idx :: documents_from (S idx) df'
  | None :: df' => documents_from (S idx) df'
  end.

Definition create_documents (df : list (option string)) : M St (list Document) :=
  try_except (ret (documents_from 0 df)) (fun e => raise e).

Section Splitter.

(** [split_text chunk_size chunk_overlap text]: the chunks the recursive
    character splitter makes of a text. *)
Variable split_text : nat -> nat -> string -> list string.

(** [TextSplitter.split_documents]: every chunk of a document is a document
    with the metadata of its source. *)
Definition split_documents (ts : TextSplitter) (documents : list Document)
    : list Document :=
  flat_map
    (fun d =>
       map (fun chunk => mkDocument chunk (anime_id d))
         (split_text (splitter_chunk_size ts) (splitter_chunk_overlap ts)
            (page_content d)))
    documents.

Definition chunk_documents (documents : list Document) : M St (list Document) :=
  try_except
    (ensure_text_splitter ;;;
     ts <- gets (fun s => text_splitter (self s)) ;;
     match ts with
     | Some ts => ret (split_documents ts documents)
     | None => raise (mkExn AttributeError "'NoneType' object has no attribute 'split_documents'")
     end)
    (fun e => raise e).

(** [Chroma(persist_directory=..., embedding_function=...)]: opens the
    collection of the directory, creating an empty one where there is
    none; an unreadable directory makes it raise. *)
Definition open_chroma (e : Embeddings) : M St Chroma :=
  d <- gets (fun s => persist_dir (world s)) ;;
  match d with
  | Corrupt => raise (mkExn ChromaError "could not open the persisted collection")
  | Index _ _ => ret (mkChroma e)
  | _ => set_persist_dir (fun _ => Index None []) ;;; ret (mkChroma e)
  end.

(** [collection.upsert(...)] of the embedded documents; the collection
    refuses an empty batch. *)
Definition add_documents (documents : list Document) (e : Embeddings)
    : M St unit :=
  match documents with
  | [] => raise (mkExn ValueError "Expected IDs to be a non-empty list")
  | _ =>
      set_persist_dir
        (fun d => match d with
                  | Index md es =>
                      Index md (es ++ map (fun d => mkEntry d e) documents)
                  | _ => d
                  end)
  end.

(** [Chroma.from_documents(documents, embedding, persist_directory)]: opens
    or creates the collection in the directory and adds the documents to
    what it holds. *)
Definition from_documents (documents : list Document) (e : Embeddings)
    : M St Chroma :=
  vs <- open_chroma e ;;
  add_documents documents e ;;;
  ret vs.

Definition create_vector_store (documents : list Document) : M St Chroma :=
  try_except
    (ensure_embeddings ;;;
     e <- gets (fun s => embeddings (self s)) ;;
     match e with
     | Some e =>
         vs <- from_documents documents e ;;
         set_self (set_vector_store (Some vs)) ;;;
         ret vs
     | None => raise (mkExn ValueError "no embedding function")
     end)
    (fun e => raise e).

Definition load_existing_vector_store : M St (option Chroma) :=
  try_except
    (ensure_embeddings ;;;
     d <- gets (fun s => persist_dir (world s)) ;;
     if dir_exists d && dir_has_data d
     then
       try_except
         (e <- gets (fun s => embeddings (self s)) ;;
          match e with
          | Some e =>
              vs <- open_chroma e ;;
              set_self (set_vector_store (Some vs)) ;;;
              ret (Some vs)
          | None => raise (mkExn ValueError "no embedding function")
          end)
         (fun _ => ret None)
     else ret None)
    (fun _ => ret None).

(** The names a lookup on an [AnimeVectorStore] finds: the methods of the
    class and the attributes [__init__] sets. *)
Definition class_attributes : list string :=
  [ "__init__"; "load_csv_data"; "initialize_embeddings";
    "create_text_splitter"; "create_documents"; "chunk_documents";
    "create_vector_store"; "load_existing_vector_store";
    "similarity_search"; "build_vector_store"; "_get_csv_hash";
    "_get_stored_hash"; "_store_csv_hash"; "get_collection_info";
    "delete_vector_store";
    "csv_path"; "persist_directory"; "embedding_model"; "chunk_size";
    "chunk_overlap"; "embeddings"; "vector_store"; "text_splitter" ].

(** [self._incremental_update(existing_store)]: the attribute is looked up
    first, and a name the object does not have raises.  (Were the name
    bound, the call would report no update.) *)
Definition call_incremental_update (existing_store : Chroma)
    : M St (option Chroma) :=
  if bool_decide ("_incremental_update" ∈ class_attributes)
  then ret None
  else raise (mkExn AttributeError
                "'AnimeVectorStore' object has no attribute '_incremental_update'").

(** [shutil.rmtree(dir); os.makedirs(dir, exist_ok=True)] *)
Definition clean_up_directory : M St unit :=
  d <- gets (fun s => persist_dir (world s)) ;;
  if dir_exists d then set_persist_dir (fun _ => EmptyDirectory) else ret tt.

(** The statements of [build_vector_store] after the attempt to reuse a
    store. *)
Definition build_new_vector_store : M St Chroma :=
  clean_up_directory ;;;
  df <- load_csv_data ;;
  documents <- create_documents df ;;
  chunked_docs <- chunk_documents documents ;;
  create_vector_store chunked_docs.

Definition build_vector_store (force_rebuild incremental_update : bool)
    : M St Chroma :=
  try_except
    (existing_store <-
       (if negb force_rebuild then load_existing_vector_store else ret None) ;;
     match existing_store with
     | Some existing_store =>
         updated_store <-
           (if incremental_update
            then call_incremental_update existing_store
            else ret None) ;;
         match updated_store with
         | Some updated_store =>
             set_self (set_vector_store (Some updated_store)) ;;;
             ret updated_store
         | None =>
             set_self (set_vector_store (Some existing_store)) ;;;
             ret existing_store
         end
     | None => build_new_vector_store
     end)
    (fun e => raise e).

End Splitter.

(** The dictionary [get_collection_info] returns, without the path it
    repeats under ['persist_directory']. *)
Record CollectionInfo := mkInfo {
  collection_name : string;
  document_count : nat;
  embedding_dimension : string
}.

(** [collection.count()] and [collection.metadata], read from the
    directory the handle points into. *)
Definition collection_of (d : PersistDir)
    : option (option (gmap string string) * list Entry) :=
  match d with
  | Index md es => Some (md, es)
  | _ => None
  end.

Definition get_collection_info : M St CollectionInfo :=
  try_except
    (vs <- gets (fun s => vector_store (self s)) ;;
     match vs with
     | None => raise (mkExn ValueError "Vector store not initialized")
     | Some _ =>
         d <- gets (fun s => persist_dir (world s)) ;;
         match collection_of d with
         | None => raise (mkExn ChromaError "collection not found")
         | Some (md, es) =>
             let count := length es in
             let metadata := default ∅ md in
             let embedding_dimension :=
               if bool_decide (metadata = ∅) then "unknown"
               else default "unknown" (metadata !! "hnsw:space") in
             ret (mkInfo "langchain" count embedding_dimension)
         end
     end)
    (fun e => raise e).

(** *** What a build starts from

    The provider and the splitter a build will use, read off the object
    and the credential before the build runs. *)

(** The provider [initialize_embeddings] selects for a model name, if it
    supports the name. *)
Definition selected_provider (model : string) (key : option string)
    : option Embeddings :=
  if String.eqb model "openai"
  then if key_missing key then Some HuggingFaceEmbeddings
       else Some (OpenAIEmbeddings (default "" key))
  else if String.eqb model "huggingface" then Some HuggingFaceEmbeddings
  else None.

(** The model name it leaves in [self.embedding_model]. *)
Definition model_after (model : string) (key : option string) : string :=
  if String.eqb model "openai" && key_missing key then "huggingface" else model.

(** The provider the object has or will select. *)
Definition provider_of (o : AnimeVectorStore) (w : World) : option Embeddings :=
  match embeddings o with
  | Some e => Some e
  | None => selected_provider (embedding_model o) (OPENAI_API_KEY w)
  end.

(** The object once its provider is selected. *)
Definition with_provider (o : AnimeVectorStore) (w : World) : AnimeVectorStore :=
  match embeddings o with
  | Some _ => o
  | None =>
      set_embeddings
        (selected_provider (embedding_model o) (OPENAI_API_KEY w))
        (set_embedding_model
           (model_after (embedding_model o) (OPENAI_API_KEY w)) o)
  end.




(** The entries a provider makes of a list of chunks. *)
Definition entries_of (e : Embeddings) (chunks : list Document) : list Entry :=
  map (fun d => mkEntry d e) chunks.

(** The world once [build_vector_store] has cleaned the directory up. *)
Definition cleaned (w : World) : World :=
  with_dir (if dir_exists (persist_dir w) then EmptyDirectory else NoDirectory) w.

(** *** [delete_vector_store] *)


(** *** [similarity_search] *)

Section Search.

(** What the collection answers to a query: the search of the library over
    the entries it holds, with the embedding function of the handle, the
    number of results asked for and the filter. *)
Variable collection_search :
  list Entry -> Embeddings -> string -> nat -> option (gmap string string) ->
  Result (list Document).

Definition similarity_search (query : string) (k : nat)
    (filter_dict : option (gmap string string)) : M St (list Document) :=
  try_except
    (vs <- gets (fun s => vector_store (self s)) ;;
     match vs with
     | None =>
         raise (mkExn ValueError
                  "Vector store not initialized. Run build_vector_store() first.")
     | Some vs =>
         d <- gets (fun s => persist_dir (world s)) ;;
         match collection_of d with
         | None => raise (mkExn ChromaError "collection not found")
         | Some (_, es) =>
             fun s =>
               (collection_search es (embedding_function vs) query k filter_dict,
                s)
         end
     end)
    (fun e => raise e).

End Search.

(** *** The stored hash of the CSV file

    [_store_csv_hash] and [_get_stored_hash] use one file of the persist
    directory, [csv_hash.txt]; the state here is that file: whether the
    directory is there, and what the file holds if it is there. *)

Record HashFile := mkHashFile {
  hash_dir_exists : bool;
  csv_hash_txt : option string
}.

(** What reading a file in text mode makes of its line ends: a carriage
    return, with or without a line feed after it, is read as a line
    feed. *)
Fixpoint universal_newlines (s : string) : string :=
  match s with
  | EmptyString => EmptyString
  | String a s' =>
      if Ascii.eqb a "013"
      then String "010"
             match s' with
             | String b s'' =>
                 if Ascii.eqb b "010" then universal_newlines s''
                 else universal_newlines s'
             | EmptyString => EmptyString
             end
      else String a (universal_newlines s')
  end.

(** [open(hash_file, 'w')] and [f.write(hash_value)], on a system that
    writes line feeds as they are. *)
Definition _store_csv_hash (hash_value : string) : M HashFile unit :=
  fun f =>
    if hash_dir_exists f
    then (Ok tt, mkHashFile true (Some hash_value))
    else (Raise (mkExn FileNotFoundError "No such file or directory"), f).

Definition _get_stored_hash : M HashFile (option string) :=
  f <- gets (fun f => f) ;;
  if hash_dir_exists f
  then match csv_hash_txt f with
       | Some text => ret (Some (strip (universal_newlines text)))
       | None => ret None
       end
  else ret None.

(** *** What the entries of an index come from *)



End VectorStore.

(** ** src/recommender.py *)

Module Recommender.

Import VectorStore.

(** A Python [float]. *)
Inductive PyFloat :=
  | Finite (x : Q)
  | PosInf
  | NegInf
  | NotANumber.

(** [x >= y] on floats *)
Definition float_ge (x y : PyFloat) : bool :=
  match x, y with
  | NotANumber, _ => false
  | _, NotANumber => false
  | PosInf, _ => true
  | _, NegInf => true
  | Finite a, Finite b => Qle_bool b a
  | Finite _, PosInf => false
  | NegInf, _ => false
  end.

(** The recommender object.  The loaded vector store and the retrieval
    chain are held by what they answer: [similarity_search(query, k)] and
    [invoke({"input": query})]; the chain's response is the dictionary of
    its text fields. *)
Record AnimeRecommender := mkRecommender {
  model_name : string;
  vector_store : option (string -> nat -> Result (list Document));
  retrieval_chain : option (string -> Result (gmap string string))
}.

(** Run a call to an outside capability. *)
Definition call {S A} (r : Result A) : M S A := fun s => (r, s).

Definition get_similar_movies (query : string) (k : nat)
    : M AnimeRecommender (list Document) :=
  try_except
    (vs <- gets vector_store ;;
     match vs with
     | None => raise (mkExn ValueError "Vector store not initialized")
     | Some similarity_search => call (similarity_search query k)
     end)
    (fun e => raise e).

(** One element of [similar_movies]. *)
Record SimilarMovie := mkSimilar {
  content : string;
  metadata : nat
}.

(** The dictionary [get_recommendations] returns. *)
Record Recommendations := mkRecommendations {
  query : string;
  recommendations : string;
  similar_movies : list SimilarMovie;
  timestamp : string;
  model_used : string
}.

Definition newline : string := String "010" EmptyString.

(** The f-string that frames the answer. *)
Definition format_answer (recommendations : string) : string :=
  newline +:+ "=============" +:+ newline +:+
  recommendations +:+ newline +:+
  "=============" +:+ newline.

(** [response.get("output", response.get("answer",
    response.get("result", "No recommendations generated")))] *)
Definition answer_of (response : gmap string string) : string :=
  default
    (default
       (default "No recommendations generated" (response !! "result"))
       (response !! "answer"))
    (response !! "output").

Section Clock.

(** [datetime.now().isoformat()] *)
Variable now : string.

Definition get_recommendations (user_query : string)
    : M AnimeRecommender Recommendations :=
  try_except
    (chain <- gets retrieval_chain ;;
     match chain with
     | None => raise (mkExn ValueError "Retrieval chain not initialized")
     | Some invoke =>
         response <- call (invoke user_query) ;;
         similar <- get_similar_movies user_query 5 ;;
         let recommendations := answer_of response in
         let formatted_answer := format_answer recommendations in
         model <- gets model_name ;;
         ret (mkRecommendations user_query formatted_answer
                (map (fun doc =>
                        mkSimilar (prefix 200 (page_content doc) +:+ "...")
                          (anime_id doc))
                   similar)
                now model)
     end)
    (fun e => raise e).

End Clock.

(** *** [_parse_movie_info] *)

(** The loop state: [info], [current_key], [current_value]. *)
Record ParseState := mkParse {
  info : gmap string string;
  current_key : option string;
  current_value : list string
}.

(** [current_key and current_value]: the key is neither [None] nor empty
    and the list is not empty. *)
Definition key_and_value (st : ParseState) : bool :=
  match current_key st, current_value st with
  | Some k, _ :: _ => negb (String.eqb k "")
  | _, _ => false
  end.

(** [if current_key and current_value:
       info[current_key] = ' '.join(current_value)] *)
Definition save_pair (st : ParseState) : gmap string string :=
  if key_and_value st
  then <[default "" (current_key st) := join " " (current_value st)]> (info st)
  else info st.

Definition parse_step (st : ParseState) (part : string) : ParseState :=
  if ends_with_colon part
  then mkParse (save_pair st) (Some (drop_last part)) []
  else
    match current_key st with
    | Some k =>
        if String.eqb k "" then st
        else mkParse (info st) (current_key st) (current_value st ++ [part])
    | None => st
    end.

Definition _parse_movie_info (combined_info : string) : gmap string string :=
  let parts := split combined_info in
  save_pair (foldl parse_step (mkParse ∅ None []) parts).

(** *** [get_recommendations_by_rating] *)

(** One element of its result. *)
Record RatedMovie := mkRated {
  title : string;
  genre : string;
  rating : PyFloat;
  runtime : string;
  certificate : string
}.

(** The entry a document with no rating yields when it is kept. *)
Definition unrated_entry (doc : Document) : RatedMovie :=
  let info := _parse_movie_info (page_content doc) in
  mkRated (default "Unknown" (info !! "title"))
    (default "Unknown" (info !! "genre"))
    (Finite 0)
    (default "Unknown" (info !! "runtime"))
    (default "Unknown" (info !! "certificate")).

Section Floats.

(** [float(s)] for a string: the float it denotes, or nothing where Python
    raises [ValueError]. *)
Variable float_of_string : string -> option PyFloat.

(** [str(x)] for a float, as the f-string of the query formats it. *)
Variable str_float : PyFloat -> string.

(** [float(info.get("rating", 0))] *)
Definition rating_of (info : gmap string string) : Result PyFloat :=
  match info !! "rating" with
  | None => Ok (Finite 0)
  | Some s =>
      match float_of_string s with
      | Some x => Ok x
      | None =>
          Raise (mkExn ValueError ("could not convert string to float: " +:+ s))
      end
  end.

(** The body of the loop over [similar_docs]. *)
Definition rate_document (min_rating : PyFloat) (recommendations : list RatedMovie)
    (doc : Document) : Result (list RatedMovie) :=
  let info := _parse_movie_info (page_content doc) in
  match rating_of info with
  | Raise e => Raise e
  | Ok rating =>
      if float_ge rating min_rating
      then Ok (recommendations ++
                 [mkRated (default "Unknown" (info !! "title"))
                    (default "Unknown" (info !! "genre"))
                    rating
                    (default "Unknown" (info !! "runtime"))
                    (default "Unknown" (info !! "certificate"))])
      else Ok recommendations
  end.

Fixpoint rate_documents (min_rating : PyFloat) (recommendations : list RatedMovie)
    (docs : list Document) : Result (list RatedMovie) :=
  match docs with
  | [] => Ok recommendations
  | doc :: docs' =>
      match rate_document min_rating recommendations doc with
      | Raise e => Raise e
      | Ok recommendations => rate_documents min_rating recommendations docs'
      end
  end.

Definition get_recommendations_by_rating (min_rating : PyFloat) (limit : nat)
    : M AnimeRecommender (list RatedMovie) :=
  try_except
    (let query :=
       "movies with rating " +:+ str_float min_rating +:+ " or higher" in
     similar_docs <- get_similar_movies query limit ;;
     call (rate_documents min_rating [] similar_docs))
    (fun e => raise e).

End Floats.

(** *** [get_recommendations_by_genre] *)

(** One element of its result.  The rating is the text of the field; the
    score is [doc.metadata.get("score", 0.0)], and the metadata of the
    documents of the index has no such key. *)
Record GenreMovie := mkGenreMovie {
  genre_title : string;
  genre_genre : string;
  genre_rating : string;
  genre_runtime : string;
  genre_certificate : string;
  similarity_score : PyFloat
}.

(** The body of the loop over [similar_docs]. *)
Definition genre_document (recommendations : list GenreMovie) (doc : Document)
    : list GenreMovie :=
  let info := _parse_movie_info (page_content doc) in
  recommendations ++
    [mkGenreMovie (default "Unknown" (info !! "title"))
       (default "Unknown" (info !! "genre"))
       (default "Unknown" (info !! "rating"))
       (default "Unknown" (info !! "runtime"))
       (default "Unknown" (info !! "certificate"))
       (Finite 0)].

Definition get_recommendations_by_genre (genre : string) (limit : nat)
    : M AnimeRecommender (list GenreMovie) :=
  try_except
    (let query := "movies in " +:+ genre +:+ " genre with high rating" in
     similar_docs <- get_similar_movies query limit ;;
     ret (foldl genre_document [] similar_docs))
    (fun e => raise e).

End Recommender.

(** ** src/recommender.py: the initialization of the engine

    [AnimeRecommender] once more, now with the attributes
    [initialize_components] sets, each by what it holds, over the world of
    the vector store. *)

Module Engine.

Import VectorStore.

(** [ChatOpenAI(model_name=..., openai_api_key=...)] *)
Record ChatOpenAI := mkChatOpenAI {
  chat_model_name : string;
  chat_api_key : string
}.

(** The chain [create_retrieval_chain] makes of a retriever over the store
    and the language model. *)
Record RetrievalChain := mkChain {
  chain_retriever : Chroma;
  chain_llm : ChatOpenAI
}.

Record AnimeRecommender := mkRecommender {
  model_name : string;
  vector_store_manager : option AnimeVectorStore;
  vector_store : option Chroma;
  llm : option ChatOpenAI;
  retrieval_chain : option RetrievalChain;
  movie_data : option (list (option string))
}.


Record St := mkSt {
  self : AnimeRecommender;
  world : World
}.

Definition set_self (f : AnimeRecommender -> AnimeRecommender) : M St unit :=
  modify (fun s => mkSt (f (self s)) (world s)).

Definition set_vector_store (v : option Chroma) (r : AnimeRecommender) :=
  mkRecommender (model_name r) (vector_store_manager r) v (llm r)
    (retrieval_chain r) (movie_data r).


Section Initialization.

Variable split_text : nat -> nat -> string -> list string.






End Initialization.

(** The part of [get_recommendation_stats] that is computed: the
    information on the collection and the number of rows of the movie
    data. *)
Record Stats := mkStats {
  stats_vector_store : CollectionInfo;
  total_movies : nat
}.



End Engine.

(** ** pipeline/pipeline.py: the query methods

    They only use [self.recommender], which is the state here. *)

Module PipelineQueries.

Import Recommender.

(** A call of a method of [self.recommender], which is not [None]. *)
Definition on_recommender {A} (m : M AnimeRecommender A)
    : M (option AnimeRecommender) A :=
  fun s =>
    match s with
    | Some r => match m r with (x, r') => (x, Some r') end
    | None =>
        (Raise (mkExn AttributeError
                  "'NoneType' object has no attribute 'get_recommendations'"),
         None)
    end.

Section Queries.

(** [datetime.now().isoformat()] *)
Variable now : string.

(** [AnimeIngestionPipeline.get_recommendations] *)
Definition get_recommendations (query : string)
    : M (option AnimeRecommender) Recommendations :=
  recommender <- gets (fun s => s) ;;
  match recommender with
  | None =>
      raise (mkExn ValueError "Recommender not initialized. Run pipeline first.")
  | Some _ =>
      try_except
        (on_recommender (Recommender.get_recommendations now query))
        (fun e => raise e)
  end.

Definition ask_question (question : string) : M (option AnimeRecommender) string :=
  try_except
    (results <- get_recommendations question ;;
     ret (recommendations results))
    (fun e => ret ("Error: " +:+ str_exn e)).

(** A value of the dictionary [quick_recommendations] returns: the
    response, or [{"error": str(e)}]. *)
Inductive QuickResult :=
  | Response (response : Recommendations)
  | Error (error : string).

(** The body of its loop. *)
Definition quick_step (results : gmap string QuickResult) (query : string)
    : M (option AnimeRecommender) (gmap string QuickResult) :=
  try_except
    (response <- get_recommendations query ;;
     ret (<[query := Response response]> results))
    (fun e => ret (<[query := Error (str_exn e)]> results)).

Fixpoint quick_loop (results : gmap string QuickResult) (queries : list string)
    : M (option AnimeRecommender) (gmap string QuickResult) :=
  match queries with
  | [] => ret results
  | query :: queries' =>
      results <- quick_step results query ;;
      quick_loop results queries'
  end.

(** The queries both [quick_recommendations] and
    [test_recommendation_system] use when they are given none. *)
Definition default_queries : list string :=
  [ "I like action and adventure movies";
    "Show me some romantic comedy movies";
    "Recommend me sci-fi movies with high ratings";
    "I want to watch something similar to Christopher Nolan films" ].

Definition quick_recommendations (queries : option (list string))
    : M (option AnimeRecommender) (gmap string QuickResult) :=
  quick_loop ∅ (default default_queries queries).

(** An element of ["responses"] in the result of
    [test_recommendation_system]. *)
Inductive TestResponse :=
  | Success (query : string) (recommendations : string)
      (similar_movies_count : nat)
  | Failure (query : string) (error : string).

Definition response_query (r : TestResponse) : string :=
  match r with Success q _ _ => q | Failure q _ => q end.

Definition test_step (responses : list TestResponse) (query : string)
    : M (option AnimeRecommender) (list TestResponse) :=
  try_except
    (response <- on_recommender (Recommender.get_recommendations now query) ;;
     ret (responses ++
            [Success query (recommendations response)
               (length (similar_movies response))]))
    (fun e => ret (responses ++ [Failure query (str_exn e)])).

Fixpoint test_loop (responses : list TestResponse) (queries : list string)
    : M (option AnimeRecommender) (list TestResponse) :=
  match queries with
  | [] => ret responses
  | query :: queries' =>
      responses <- test_step responses query ;;
      test_loop responses queries'
  end.

(** [test_recommendation_system]; its result also repeats the queries. *)
Definition test_recommendation_system (test_queries : option (list string))
    : M (option AnimeRecommender) (list string * list TestResponse) :=
  recommender <- gets (fun s => s) ;;
  match recommender with
  | None =>
      raise (mkExn ValueError "Recommender not initialized. Run pipeline first.")
  | Some _ =>
      let test_queries := default default_queries test_queries in
      responses <- test_loop [] test_queries ;;
      ret (test_queries, responses)
  end.

(** What one query comes to, read off [self.recommender]. *)
Definition outcome (s : option AnimeRecommender) (query : string)
    : Result Recommendations :=
  match s with
  | None =>
      Raise (mkExn ValueError "Recommender not initialized. Run pipeline first.")
  | Some r => fst (Recommender.get_recommendations now query r)
  end.

(** The entry [quick_recommendations] makes of it. *)
Definition quick_value (s : option AnimeRecommender) (query : string)
    : QuickResult :=
  match outcome s query with
  | Ok response => Response response
  | Raise e => Error (str_exn e)
  end.

(** The response [test_recommendation_system] makes of it. *)
Definition test_value (s : option AnimeRecommender) (query : string)
    : TestResponse :=
  match outcome s query with
  | Ok response =>
      Success query (recommendations response)
        (length (similar_movies response))
  | Raise e => Failure query (str_exn e)
  end.

End Queries.

End PipelineQueries.

(** ** The text of a movie, between the data loader and the recommender

    [_create_combined_info_column] writes a row as ["col: value col: value"];
    [_parse_movie_info] reads fields out of such a text.  These are the
    shapes of text for which the two are compared. *)

Module Fields.

(** A word: not empty and without white space. *)
Definition token (t : string) : bool :=
  negb (String.eqb t "") && all_chars (fun a => negb (is_space a)) t.

(** A word of a value: a word that does not read as a field name. *)
Definition value_word (t : string) : bool :=
  token t && negb (ends_with_colon t).

(** A field: a name and the words of its value, at least one. *)
Definition well_formed_field (f : string * list string) : bool :=
  token f.1 && negb (bool_decide (f.2 = [])) && forallb value_word f.2.

(** ["name: word word ..."] *)
Definition field_text (f : string * list string) : string :=
  f.1 +:+ ": " +:+ join " " f.2.

(** The words of a field: its name with the colon, then its value. *)
Definition field_words (f : string * list string) : list string :=
  (f.1 +:+ ":") :: f.2.

Definition fields_text (fields : list (string * list string)) : string :=
  join " " (map field_text fields).

(** The dictionary that holds each field's value under its name, a later
    field replacing an earlier one of the same name. *)
Definition fields_dict (fields : list (string * list string))
    : gmap string string :=
  foldl (fun m f => <[f.1 := join " " f.2]> m) ∅ fields.

(** A value as the cleaning leaves text: words separated by single spaces,
    at least one, none ending in a colon. *)
Definition plain_text (v : string) : bool :=
  negb (bool_decide (split v = [])) &&
  forallb (fun w => negb (ends_with_colon w)) (split v) &&
  String.eqb (join " " (split v)) v.

End Fields.

(** ** The shape of a cleaned text *)

Module CleanedText.

Import DataLoader.



(** A character of a text after the white space was normalized. *)
Definition spaced_char (a : ascii) : bool :=
  keep_char a && (negb (is_space a) || Ascii.eqb a " ").




End CleanedText.

(** ** data/data_loader.py: [get_anime_info] *)

Module AnimeInfo.

Import DataLoader.

(** The dictionary [get_anime_info] returns, by its keys. *)
Record Info := mkInfo {
  info_title : Cell;
  info_genre : Cell;
  info_rating : Cell;
  info_year : Cell;
  info_description : Cell;
  info_director : Cell;
  info_votes : Cell
}.

(** What a call comes to: the dictionary, or the exception raised. *)
Inductive Outcome :=
  | Returns (info : Info)
  | RaisesValueError (msg : string)
  | RaisesIndexError (msg : string).

(** [anime.get(key, default)] on the row of a table: the cell where the
    table has the column, missing or not, and the default where it has
    not. *)
Definition get (df : DataFrame) (row : gmap string Cell) (key : string)
    (default : Cell) : Cell :=
  if has_col key df then cell_of row key else default.

(** [df.iloc[i]]: the row at position [i], a negative [i] counting from
    the end; nothing where pandas raises [IndexError]. *)
Definition iloc (df : DataFrame) (i : Z) : option (nat * gmap string Cell) :=
  let n := Z.of_nat (len df) in
  if (0 <=? i)%Z then rows df !! Z.to_nat i
  else if (- n <=? i)%Z then rows df !! Z.to_nat (n + i)
  else None.

Section Info.

(** [str(i)] for an integer. *)
Variable str_int : Z -> string.

(** [get_anime_info] on a loader whose [cleaned_df] is [df]. *)
Definition get_anime_info (df : DataFrame) (anime_id : Z) : Outcome :=
  if (Z.of_nat (len df) <=? anime_id)%Z
  then RaisesValueError ("Anime ID " +:+ str_int anime_id +:+ " is out of range")
  else
    match iloc df anime_id with
    | None => RaisesIndexError "single positional indexer is out-of-bounds"
    | Some anime =>
        Returns
          (mkInfo (get df anime.2 "title" (Str "Unknown"))
             (get df anime.2 "genre" (Str "Unknown"))
             (get df anime.2 "rating" (Num 0))
             (get df anime.2 "year" (Num 0))
             (get df anime.2 "description" (Str "No description available"))
             (get df anime.2 "director" (Str "Unknown"))
             (get df anime.2 "votes" (Num 0)))
    end.

End Info.

End AnimeInfo.

(** ** Concrete data for the examples *)

Module Examples.

(** *** Decimal numerals

    A reader and a printer of plain decimal numerals ([12], [-3.5],
    [8.25]), which pandas, [float] and [str] agree on; they stand for the
    library functions where an example needs values. *)

Fixpoint digits_value (acc : N) (s : string) : option N :=
  match s with
  | EmptyString => Some acc
  | String a s' =>
      if is_digit a
      then digits_value (10 * acc + (N_of_ascii a - 48))%N s'
      else None
  end.

(** The text before the first ["."] and the text after it, if any. *)
Fixpoint split_point (s : string) : string * option string :=
  match s with
  | EmptyString => (EmptyString, None)
  | String a s' =>
      if Ascii.eqb a "."
      then (EmptyString, Some s')
      else match split_point s' with (i, f) => (String a i, f) end
  end.

Definition unsigned_decimal (s : string) : option Q :=
  match split_point s with
  | (EmptyString, None) | (EmptyString, Some EmptyString) => None
  | (i, f) =>
      let f := default "" f in
      match digits_value 0 i, digits_value 0 f with
      | Some n, Some m =>
          let scale := (10 ^ N.of_nat (String.length f))%N in
          Some (Qmake (Z.of_N (n * scale + m)) (Pos.of_nat (N.to_nat scale)))
      | _, _ => None
      end
  end.

Definition decimal_of_string (s : string) : option Q :=
  match s with
  | String "-" s' => Qopp <$> unsigned_decimal s'
  | String "+" s' => unsigned_decimal s'
  | _ => unsigned_decimal s
  end.

Definition digit_char (n : N) : ascii := ascii_of_N (48 + n).

Fixpoint digits_of (fuel : nat) (n : N) (acc : string) : string :=
  match fuel with
  | O => acc
  | S fuel' =>
      let acc := String (digit_char (n mod 10)) acc in
      if (n / 10 =? 0)%N then acc else digits_of fuel' (n / 10) acc
  end.

Definition string_of_N (n : N) : string := digits_of (S (N.to_nat n)) n "".

(** The digits of the fraction [r / d], at most [fuel] of them, with no
    trailing zero after the first digit. *)
Fixpoint fraction_digits (fuel : nat) (r d : N) : string :=
  match fuel with
  | O => EmptyString
  | S fuel' =>
      let digit := (10 * r / d)%N in
      let r' := (10 * r mod d)%N in
      String (digit_char digit)
        (if (r' =? 0)%N then EmptyString else fraction_digits fuel' r' d)
  end.

Definition string_of_decimal (x : Q) : string :=
  let n := Z.abs_N (Qnum x) in
  let d := Npos (Qden x) in
  (if (Qnum x <? 0)%Z then "-" else "") +:+
  string_of_N (n / d) +:+ "." +:+ fraction_digits 17 (n mod d) d.

(** [float(s)] on decimal numerals *)
Definition float_of_decimal (s : string) : option Recommender.PyFloat :=
  Recommender.Finite <$> decimal_of_string s.

Definition string_of_float (x : Recommender.PyFloat) : string :=
  match x with
  | Recommender.Finite q => string_of_decimal q
  | Recommender.PosInf => "inf"
  | Recommender.NegInf => "-inf"
  | Recommender.NotANumber => "nan"
  end.

(** *** Tables *)

Definition row (label : nat) (cells : list (string * DataLoader.Cell))
    : nat * gmap string DataLoader.Cell :=
  (label, list_to_map cells).

(** Two raw records, neither with a usable rating: one cell is empty in the
    file, the other holds a remark. *)
Definition unrated : DataLoader.DataFrame :=
  DataLoader.mkDF ["title"; "rating"]
    [ row 0 [("title", DataLoader.Str "Akira (1988)");
             ("rating", DataLoader.NaN)];
      row 1 [("title", DataLoader.Str "Paprika (2006)");
             ("rating", DataLoader.Str "not rated")] ].

(** Three raw records, the second without a rating. *)
Definition one_missing : DataLoader.DataFrame :=
  DataLoader.mkDF ["title"; "rating"]
    [ row 0 [("title", DataLoader.Str "Akira"); ("rating", DataLoader.Num 8)];
      row 1 [("title", DataLoader.Str "Paprika"); ("rating", DataLoader.NaN)];
      row 2 [("title", DataLoader.Str "Redline"); ("rating", DataLoader.Num 7.5)] ].

(** A table whose second and third rows differ in [genre_list] alone. *)
Definition with_duplicate : DataLoader.DataFrame :=
  DataLoader.mkDF ["title"; "genre_list"]
    [ row 0 [("title", DataLoader.Str "akira"); ("genre_list", DataLoader.Str "action")];
      row 1 [("title", DataLoader.Str "paprika"); ("genre_list", DataLoader.Str "drama")];
      row 2 [("title", DataLoader.Str "paprika"); ("genre_list", DataLoader.Str "mystery")] ].

Definition without_duplicate : DataLoader.DataFrame :=
  DataLoader.mkDF ["title"; "genre_list"]
    [ row 0 [("title", DataLoader.Str "akira"); ("genre_list", DataLoader.Str "action")];
      row 1 [("title", DataLoader.Str "paprika"); ("genre_list", DataLoader.Str "drama")] ].

(** *** A splitter and worlds for the vector store *)

Fixpoint drop_chars (n : nat) (s : string) : string :=
  match n, s with
  | S n', String _ s' => drop_chars n' s'
  | _, _ => s
  end.

(** What the recursive character splitter makes of a text that has no
    separator in it: windows of [size] characters, each starting
    [size - overlap] characters after the one before, and no chunk at all
    for the empty text. *)
Fixpoint windows (fuel size overlap : nat) (s : string) : list string :=
  match fuel with
  | O => []
  | S fuel' =>
      if Nat.leb (String.length s) size then [s]
      else prefix size s :: windows fuel' size overlap (drop_chars (size - overlap) s)
  end.

Definition window_split (size overlap : nat) (s : string) : list string :=
  match s with
  | EmptyString => []
  | _ => windows (String.length s) size overlap s
  end.



Definition short_corpus : list (option string) :=
  [Some "title: akira rating: 8.0"; Some "title: paprika rating: 7.7"].

(** An index that an earlier build left. *)
Definition old_index : VectorStore.PersistDir :=
  VectorStore.Index None
    [VectorStore.mkEntry (VectorStore.mkDocument "title: old" 0)
       VectorStore.HuggingFaceEmbeddings].

Definition world_with (df : list (option string)) (d : VectorStore.PersistDir)
    (key : option string) : VectorStore.World :=
  VectorStore.mkWorld (Some df) d key.

(** The object as the pipeline constructs it: the defaults of [__init__]. *)
Definition default_store : VectorStore.AnimeVectorStore :=
  VectorStore.new_store "openai" 1000 200.

(** *** Recommenders *)

(** A chain whose response carries the input and nothing else. *)
Definition silent_chain (user_query : string) : Result (gmap string string) :=
  Ok {[ "input" := user_query ]}.

(** A chain that answers under the key ["result"]. *)
Definition result_chain (user_query : string) : Result (gmap string string) :=
  Ok {[ "input" := user_query; "result" := "Watch Akira." ]}.

(** A store that finds one entry, which has no rating. *)
Definition unrated_search (query : string) (k : nat)
    : Result (list VectorStore.Document) :=
  Ok [VectorStore.mkDocument "title: akira genre: action" 0].

(** A store that finds an entry whose rating is the text ["Unknown"]. *)
Definition unknown_search (query : string) (k : nat)
    : Result (list VectorStore.Document) :=
  Ok [VectorStore.mkDocument "title: akira rating: 8.5" 0;
      VectorStore.mkDocument "title: paprika rating: Unknown" 1].

Definition silent_recommender : Recommender.AnimeRecommender :=
  Recommender.mkRecommender "gpt-3.5-turbo" (Some unrated_search)
    (Some silent_chain).

Definition result_recommender : Recommender.AnimeRecommender :=
  Recommender.mkRecommender "gpt-3.5-turbo" (Some unrated_search)
    (Some result_chain).

Definition unknown_recommender : Recommender.AnimeRecommender :=
  Recommender.mkRecommender "gpt-3.5-turbo" (Some unknown_search)
    (Some silent_chain).

(** *** Stages for the orchestrator

    The environment is the list of the stages that ran. *)

Definition loading_ok : M (list string) string :=
  fun e => (Ok "Shape: (3, 9)", e ++ ["data_loading"]).

Definition vector_store_fails (force_rebuild : bool) : M (list string) string :=
  fun e => (Raise (mkExn FileNotFoundError "CSV file not found"),
            e ++ ["vector_store_creation"]).

Definition recommender_ok : M (list string) string :=
  fun e => (Ok "initialized", e ++ ["recommender_initialization"]).

End Examples.

(** ** More concrete data *)

Module Scenarios.
Import Examples.

(** [str(i)] for an integer *)
Definition string_of_Z (i : Z) : string :=
  (if (i <? 0)%Z then "-" else "") +:+ string_of_N (Z.abs_N i).

(** A stage of the orchestrator that succeeds. *)
Definition vector_store_ok (force_rebuild : bool) : M (list string) string :=
  fun e => (Ok "2 documents", e ++ ["vector_store_creation"]).

(** The state a completed run leaves. *)
Definition completed_status : Pipeline.PipelineStatus :=
  Pipeline.mkStatus true true true "completed".


(** A store that finds two entries with ratings. *)
Definition rated_search (query : string) (k : nat)
    : Result (list VectorStore.Document) :=
  Ok [VectorStore.mkDocument "title: akira rating: 8.5" 0;
      VectorStore.mkDocument "title: paprika rating: 7" 1].

Definition rated_recommender : Recommender.AnimeRecommender :=
  Recommender.mkRecommender "gpt-3.5-turbo" (Some rated_search)
    (Some silent_chain).


(** The fields of a record. *)
Definition akira_fields : list (string * list string) :=
  [("title", ["akira"]); ("genre", ["action,"; "sci-fi"]); ("rating", ["8.0"])].

(** A row of a cleaned table, without a year. *)
Definition akira_row : gmap string DataLoader.Cell :=
  list_to_map
    [("title", DataLoader.Str "akira the movie");
     ("rating", DataLoader.Num 8);
     ("year", DataLoader.NaN)].

(** A raw table with a missing title and a genre column without values. *)
Definition sparse : DataLoader.DataFrame :=
  DataLoader.mkDF ["title"; "genre"]
    [ row 0 [("title", DataLoader.Str "Akira"); ("genre", DataLoader.NaN)];
      row 1 [("title", DataLoader.NaN); ("genre", DataLoader.NaN)] ].


End Scenarios.

(** * Theorems *)

(** ** The orchestrator *)

Module PipelineSpec.
Import Pipeline.

(** C4. When stage [k] is the first to raise, the run stops there: the
    final environment is the one the raising stage left (no later stage
    ran on it), [steps_completed] and [statistics] hold exactly the stages
    before [k], the result and the pipeline state both say ["failed"], the
    message of the exception is the one recorded error, and the flags of
    the stages before [k] are [true] while that of [k] is [false]: nothing
    is rolled back. *)
Theorem run_complete_pipeline_failed_stage
    {Env Stats : Type} (data_loading_body : M Env Stats)
    (vector_store_body : bool -> M Env Stats) (recommender_body : M Env Stats)
    (force_rebuild : bool) (k : Stage) (x : Exn) (e0 ek : Env)
    (p0 : PipelineStatus) (r0 : Results Stats) :
  raises_at data_loading_body vector_store_body recommender_body
    force_rebuild k x e0 ek ->
  exists res p',
    run_complete_pipeline data_loading_body vector_store_body recommender_body
      force_rebuild (mkSt p0 r0 e0) = (Ok res, mkSt p' res ek) /\
    pipeline_status res = "failed" /\
    errors res = [str_exn x] /\
    steps_completed res = map stage_name (stages_before k) /\
    map fst (statistics res) = map statistics_key (stages_before k) /\
    overall_status p' = "failed" /\
    (forall j, In j (stages_before k) -> flag j p' = true) /\
    flag k p' = false.
Proof.
  intros H.
  unfold run_complete_pipeline, _run_data_loading_step,
    _run_vector_store_step, _run_recommender_step, try_except, bind,
    on_env, set_status, set_results, modify, raise, ret, gets.
  destruct k; simpl in H.
  - simpl. rewrite H. simpl.
    eexists _, _. split; [reflexivity|]. simpl.
    repeat split; try reflexivity. intros j [].
  - destruct H as (d & e1 & H1 & H2).
    simpl. rewrite H1. simpl. rewrite H2. simpl.
    eexists _, _. split; [reflexivity|]. simpl.
    repeat split; try reflexivity.
    intros j [<-|[]]. reflexivity.
  - destruct H as (d & e1 & v & e2 & H1 & H2 & H3).
    simpl. rewrite H1. simpl. rewrite H2. simpl. rewrite H3. simpl.
    eexists _, _. split; [reflexivity|]. simpl.
    repeat split; try reflexivity.
    intros j [<-|[<-|[]]]; reflexivity.
Qed.

End PipelineSpec.

(** ** The orchestrator: runs that succeed, and what every run returns *)

Module PipelineRuns.
Import Pipeline.

Section Runs.

Context {Env Stats : Type}.
Variable data_loading_body : M Env Stats.
Variable vector_store_body : bool -> M Env Stats.
Variable recommender_body : M Env Stats.

Local Abbreviation run_pipeline :=
  (run_complete_pipeline data_loading_body vector_store_body recommender_body).

Ltac run_stages :=
  unfold run_complete_pipeline, _run_data_loading_step,
    _run_vector_store_step, _run_recommender_step, try_except, bind,
    on_env, set_status, set_results, modify, raise, ret, gets; simpl.

(** X1. When the three stages return, the run reports them all, in order, with
    their statistics and no error; the result and the pipeline state say
    ["completed"] and the three flags are [true]. *)
Theorem run_complete_pipeline_completed
    (force_rebuild : bool) (p0 : PipelineStatus) (r0 : Results Stats)
    (e0 e1 e2 e3 : Env) (d v r : Stats) :
  data_loading_body e0 = (Ok d, e1) ->
  vector_store_body force_rebuild e1 = (Ok v, e2) ->
  recommender_body e2 = (Ok r, e3) ->
  run_pipeline force_rebuild (mkSt p0 r0 e0)
  = (Ok (mkResults "completed" (map stage_name all_stages) []
           [("data_loading", d); ("vector_store", v); ("recommender", r)]),
     mkSt (mkStatus true true true "completed")
       (mkResults "completed" (map stage_name all_stages) []
          [("data_loading", d); ("vector_store", v); ("recommender", r)])
       e3).
Proof.
  intros H1 H2 H3. run_stages.
  rewrite H1. simpl. rewrite H2. simpl. rewrite H3. reflexivity.
Qed.

(** X2. A run never raises: it always returns its result dictionary.  The
    status it returns is the one it leaves in the pipeline state, and it
    is ["completed"] with no error and three steps, or ["failed"] with
    exactly one error and fewer than three steps. *)
Theorem run_complete_pipeline_returns
    (force_rebuild : bool) (s : St Env Stats) :
  exists res s',
    run_pipeline force_rebuild s = (Ok res, s') /\
    results s' = res /\
    overall_status (self_status s') = pipeline_status res /\
    length (statistics res) = length (steps_completed res) /\
    ((pipeline_status res = "completed" /\ errors res = [] /\
      steps_completed res = map stage_name all_stages) \/
     (pipeline_status res = "failed" /\ length (errors res) = 1 /\
      length (steps_completed res) < 3)).
Proof.
  destruct s as [p0 r0 e0]. run_stages.
  destruct (data_loading_body e0) as [[d|x1] e1]; simpl;
    [destruct (vector_store_body force_rebuild e1) as [[v|x2] e2]; simpl;
       [destruct (recommender_body e2) as [[r|x3] e3]; simpl|]|];
    eexists _, _; (split; [reflexivity|]); simpl;
    (split; [reflexivity|]); (split; [reflexivity|]); (split; [reflexivity|]);
    first [ left; repeat split; reflexivity
          | right; repeat split; simpl; lia ].
Qed.

(** X3. A run that fails at stage [k] leaves the flags of the stages after [k]
    as they were: a flag that an earlier run set stays set. *)
Theorem run_complete_pipeline_keeps_later_flags
    (force_rebuild : bool) (k : Stage) (x : Exn) (e0 ek : Env)
    (p0 : PipelineStatus) (r0 : Results Stats) :
  raises_at data_loading_body vector_store_body recommender_body
    force_rebuild k x e0 ek ->
  forall j, In j (stages_after k) ->
    flag j (self_status (snd (run_pipeline force_rebuild (mkSt p0 r0 e0))))
    = flag j p0.
Proof.
  intros H j Hj. run_stages.
  destruct k; simpl in H.
  - rewrite H. simpl. destruct Hj as [<-|[<-|[]]]; reflexivity.
  - destruct H as (d & e1 & H1 & H2). rewrite H1. simpl. rewrite H2. simpl.
    destruct Hj as [<-|[]]. reflexivity.
  - destruct Hj.
Qed.

End Runs.

End PipelineRuns.

(** ** The corpus builder *)

Module DataLoaderSpec.
Import DataLoader.

(** *** Columns *)

Lemma zip_with_map_same {A B C} (f : A -> B -> C) (g : A -> B) (l : list A) :
  zip_with f l (map g l) = map (fun x => f x (g x)) l.
Proof. induction l as [|x l IH]; simpl; [reflexivity | now rewrite IH]. Qed.

Lemma rows_set_col_map (col : string) (g : nat * gmap string Cell -> Cell)
    (df : DataFrame) :
  rows (set_col col (map g (rows df)) df)
  = map (fun r => (r.1, <[col := g r]> r.2)) (rows df).
Proof. unfold set_col. simpl. apply zip_with_map_same. Qed.

Lemma get_col_set_col_map (col : string) (g : nat * gmap string Cell -> Cell)
    (df : DataFrame) :
  get_col col (set_col col (map g (rows df)) df) = map g (rows df).
Proof.
  unfold get_col. rewrite rows_set_col_map, map_map.
  apply map_ext. intros r. unfold cell_of. simpl.
  now rewrite lookup_insert_eq.
Qed.

Lemma has_col_set_col (col : string) (vals : list Cell) (df : DataFrame) :
  has_col col (set_col col vals df) = true.
Proof.
  unfold set_col, has_col at 1. simpl. apply bool_decide_eq_true.
  unfold has_col. destruct (decide (col ∈ columns df)) as [Hin|Hnot].
  - rewrite bool_decide_eq_true_2; assumption.
  - rewrite bool_decide_eq_false_2 by assumption.
    apply elem_of_app. right. apply list_elem_of_singleton. reflexivity.
Qed.

(** *** Medians and missing values *)

Lemma length_insert_sorted (x : Q) (l : list Q) :
  length (insert_sorted x l) = S (length l).
Proof.
  induction l as [|y l IH]; simpl; [reflexivity|].
  destruct (Qle_bool x y); simpl; [reflexivity | now rewrite IH].
Qed.

Lemma length_sort_values (l : list Q) : length (sort_values l) = length l.
Proof.
  induction l as [|x l IH]; simpl; [reflexivity|].
  now rewrite length_insert_sorted, IH.
Qed.

(** The median of a column is missing exactly when the column has no
    number. *)
Lemma median_missing_iff (col : list Cell) :
  median col = NaN <-> numeric_values col = [].
Proof.
  unfold median.
  pose proof (length_sort_values (numeric_values col)) as Hlen.
  destruct (sort_values (numeric_values col)) as [|x s] eqn:Es;
    destruct (numeric_values col) as [|y ys]; simpl in Hlen; try discriminate.
  - split; reflexivity.
  - split; [|discriminate]. simpl length.
    destruct (Nat.odd (S (length s))); discriminate.
Qed.

(** Where a column has at least one number, filling with the median
    leaves no missing value, and the cells that were missing hold the
    median. *)
Lemma fillna_median_complete (col : list Cell) :
  numeric_values col <> [] ->
  exists m,
    median col = Num m /\
    Forall (fun c => isna c = false) (fillna (median col) col) /\
    forall i, col !! i = Some NaN -> fillna (median col) col !! i = Some (Num m).
Proof.
  intros Hne.
  destruct (median col) as [| s | m] eqn:Em.
  - apply median_missing_iff in Em. contradiction.
  - exfalso. unfold median in Em.
    destruct (length (sort_values (numeric_values col))); [discriminate|].
    destruct (Nat.odd (S n)); discriminate.
  - exists m. split; [reflexivity|]. split.
    + unfold fillna. apply Forall_forall. intros c Hin.
      apply list_elem_of_In, in_map_iff in Hin as (c0 & <- & _).
      destruct c0; reflexivity.
    + intros i Hi. unfold fillna.
      change (map ?f ?l) with (f <$> l). now rewrite list_lookup_fmap, Hi.
Qed.

(** Where it has none, filling changes nothing: what was missing stays
    missing. *)
Lemma fillna_median_no_number (col : list Cell) :
  numeric_values col = [] -> fillna (median col) col = col.
Proof.
  intros Hnone. apply median_missing_iff in Hnone. rewrite Hnone.
  clear Hnone. unfold fillna. induction col as [|c col IH]; [reflexivity|].
  simpl. rewrite IH. now destruct c.
Qed.

(** *** The year of a cleaned title *)

Lemma keep_char_not_paren (a : ascii) : keep_char a = true -> not_paren a = true.
Proof.
  destruct a as [[] [] [] [] [] [] [] []]; vm_compute; intros H;
    first [reflexivity | discriminate H].
Qed.

Lemma lower_char_not_paren (a : ascii) :
  not_paren a = true -> not_paren (lower_char a) = true.
Proof.
  destruct a as [[] [] [] [] [] [] [] []]; vm_compute; intros H;
    first [reflexivity | discriminate H].
Qed.

Lemma all_chars_filter_keep (s : string) :
  all_chars not_paren (string_filter keep_char s) = true.
Proof.
  induction s as [|a s IH]; [reflexivity|].
  simpl. destruct (keep_char a) eqn:E; [|exact IH].
  simpl. now rewrite (keep_char_not_paren a E), IH.
Qed.

Lemma all_chars_collapse_spaces (in_run : bool) (s : string) :
  all_chars not_paren s = true ->
  all_chars not_paren (collapse_spaces in_run s) = true.
Proof.
  revert in_run. induction s as [|a s IH]; intros in_run H; [reflexivity|].
  simpl in *. apply andb_true_iff in H as [Ha Hs].
  destruct (is_space a); [destruct in_run|]; simpl.
  - now apply IH.
  - now apply IH.
  - rewrite Ha. now apply IH.
Qed.

Lemma all_chars_lstrip (s : string) :
  all_chars not_paren s = true -> all_chars not_paren (lstrip s) = true.
Proof.
  induction s as [|a s IH]; intros H; [reflexivity|].
  simpl. destruct (is_space a); [|exact H].
  simpl in H. apply andb_true_iff in H as [_ Hs]. auto.
Qed.

Lemma all_chars_rstrip (s : string) :
  all_chars not_paren s = true -> all_chars not_paren (rstrip s) = true.
Proof.
  induction s as [|a s IH]; intros H; [reflexivity|].
  simpl in *. apply andb_true_iff in H as [Ha Hs]. specialize (IH Hs).
  destruct (rstrip s) as [|b r].
  - destruct (is_space a); simpl; [reflexivity | now rewrite Ha].
  - change (all_chars not_paren (String a (String b r)))
      with (not_paren a && all_chars not_paren (String b r)).
    now rewrite Ha, IH.
Qed.

Lemma all_chars_lower (s : string) :
  all_chars not_paren s = true -> all_chars not_paren (lower s) = true.
Proof.
  induction s as [|a s IH]; intros H; [reflexivity|].
  simpl in *. apply andb_true_iff in H as [Ha Hs].
  rewrite (lower_char_not_paren a Ha). exact (IH Hs).
Qed.

(** A cleaned text holds no opening parenthesis. *)
Lemma clean_text_no_paren (text : string) :
  all_chars not_paren (_clean_text text) = true.
Proof.
  unfold _clean_text.
  destruct (String.eqb text "nan"); [reflexivity|].
  destruct (String.eqb _ ""); [reflexivity|].
  apply all_chars_lower. unfold strip.
  apply all_chars_rstrip, all_chars_lstrip, all_chars_collapse_spaces,
    all_chars_filter_keep.
Qed.

Lemma extract_year_no_paren (s : string) :
  all_chars not_paren s = true -> extract_year s = None.
Proof.
  induction s as [|a s IH]; intros H; [reflexivity|].
  simpl in *. apply andb_true_iff in H as [Ha Hs].
  unfold not_paren in Ha. apply negb_true_iff in Ha. rewrite Ha. auto.
Qed.

(** [clean_data] cleans the titles before it looks for the year, and the
    cleaning removes the parentheses the pattern needs: no cleaned title
    yields a year. *)
Lemma extract_year_clean_text (text : string) :
  extract_year (_clean_text text) = None.
Proof. apply extract_year_no_paren, clean_text_no_paren. Qed.

(** *** The year column of a cleaned table *)

Section Year.

Variable str_num : Q -> string.
Variable to_numeric_str : string -> option Q.

Lemma get_col_as_map (col : string) (f : Cell -> Cell) (df : DataFrame) :
  map f (get_col col df) = map (fun r => f (cell_of r.2 col)) (rows df).
Proof. unfold get_col. apply map_map. Qed.

Lemma get_col_set_col_other (col col' : string)
    (g : nat * gmap string Cell -> Cell) (df : DataFrame) :
  col <> col' ->
  get_col col (set_col col' (map g (rows df)) df) = get_col col df.
Proof.
  intros Hne. unfold get_col. rewrite rows_set_col_map, map_map.
  apply map_ext. intros r. unfold cell_of. simpl.
  now rewrite lookup_insert_ne by congruence.
Qed.

Lemma has_col_set_col_other (col col' : string) (vals : list Cell)
    (df : DataFrame) :
  has_col col df = true -> has_col col (set_col col' vals df) = true.
Proof.
  unfold has_col, set_col. simpl. intros H%bool_decide_eq_true.
  apply bool_decide_eq_true.
  destruct (has_col col' df); [exact H|].
  apply elem_of_app. now left.
Qed.

(** [astype(str)] followed by [_clean_text], as [_clean_text_columns] does
    to each of its columns. *)
Lemma clean_column_same (col : string) (df : DataFrame) :
  let df1 := set_col col (map (fun c => Str (str_cell str_num c)) (get_col col df)) df in
  get_col col
    (set_col col
       (map (fun c => Str (_clean_text (str_cell str_num c))) (get_col col df1))
       df1)
  = map (fun c => Str (_clean_text (str_cell str_num c))) (get_col col df).
Proof.
  intros df1. rewrite (get_col_as_map col _ df1), get_col_set_col_map.
  unfold df1. rewrite (get_col_as_map col _ df), rows_set_col_map, map_map.
  unfold get_col. rewrite map_map. apply map_ext. intros r.
  unfold cell_of. simpl. now rewrite lookup_insert_eq.
Qed.

Lemma clean_column_other (col col' : string) (df : DataFrame) :
  col <> col' ->
  let df1 := set_col col' (map (fun c => Str (str_cell str_num c)) (get_col col' df)) df in
  get_col col
    (set_col col'
       (map (fun c => Str (_clean_text (str_cell str_num c))) (get_col col' df1))
       df1)
  = get_col col df.
Proof.
  intros Hne df1.
  rewrite (get_col_as_map col' _ df1), (get_col_set_col_other col col') by exact Hne.
  unfold df1. rewrite (get_col_as_map col' _ df).
  now apply get_col_set_col_other.
Qed.

(** After [_clean_text_columns] every title is a cleaned text. *)
Lemma clean_text_columns_title (df : DataFrame) :
  has_col "title" df = true ->
  has_col "title" (_clean_text_columns str_num df) = true /\
  get_col "title" (_clean_text_columns str_num df)
  = map (fun c => Str (_clean_text (str_cell str_num c))) (get_col "title" df).
Proof.
  intros Htitle. unfold _clean_text_columns. cbn [foldl]. rewrite Htitle.
  set (df1 := set_col "title" _ (set_col "title" _ df)).
  assert (H1 : has_col "title" df1 = true) by apply has_col_set_col.
  assert (G1 : get_col "title" df1
               = map (fun c => Str (_clean_text (str_cell str_num c)))
                   (get_col "title" df))
    by apply clean_column_same.
  clearbody df1. revert H1 G1.
  generalize (map (fun c => Str (_clean_text (str_cell str_num c)))
                (get_col "title" df)) as cleaned.
  intros cleaned.
  assert (Hstep : forall col d,
            "title" <> col ->
            has_col "title" d = true -> get_col "title" d = cleaned ->
            let d' :=
              if has_col col d
              then
                let d1 := set_col col (map (fun c => Str (str_cell str_num c))
                                         (get_col col d)) d in
                set_col col
                  (map (fun c => Str (_clean_text (str_cell str_num c)))
                     (get_col col d1)) d1
              else d in
            has_col "title" d' = true /\ get_col "title" d' = cleaned).
  { intros col d Hne Hh Hg d'. unfold d'. destruct (has_col col d); [|auto].
    split.
    - now apply has_col_set_col_other, has_col_set_col_other.
    - rewrite <- Hg. now apply clean_column_other. }
  intros H1 G1.
  destruct (Hstep "genre" df1 ltac:(discriminate) H1 G1) as [H2 G2].
  destruct (Hstep "description" _ ltac:(discriminate) H2 G2) as [H3 G3].
  destruct (Hstep "director" _ ltac:(discriminate) H3 G3) as [H4 G4].
  exact (Hstep "cast" _ ltac:(discriminate) H4 G4).
Qed.

Lemma numeric_values_all_missing (col : list Cell) :
  Forall (fun c => c = NaN) col -> numeric_values col = [].
Proof.
  unfold numeric_values. induction 1 as [|c col -> _ IH]; [reflexivity|].
  simpl. exact IH.
Qed.

(** Coercing and filling a column changes no other column. *)
Lemma coerce_and_fill_other (col col' : string) (df : DataFrame) :
  col <> col' ->
  get_col col (coerce_and_fill to_numeric_str col' df) = get_col col df.
Proof.
  intros Hne. unfold coerce_and_fill.
  set (df1 := set_col col' (map (to_numeric to_numeric_str) (get_col col' df)) df).
  unfold fillna. rewrite (get_col_as_map col' _ df1).
  rewrite get_col_set_col_other by exact Hne.
  unfold df1. rewrite (get_col_as_map col' _ df).
  now apply get_col_set_col_other.
Qed.

(** A column of missing values is left as it is. *)
Lemma coerce_and_fill_all_missing (col : string) (df : DataFrame) :
  Forall (fun c => c = NaN) (get_col col df) ->
  Forall (fun c => c = NaN) (get_col col (coerce_and_fill to_numeric_str col df)).
Proof.
  intros Hall. unfold coerce_and_fill.
  set (df1 := set_col col (map (to_numeric to_numeric_str) (get_col col df)) df).
  assert (H1 : Forall (fun c => c = NaN) (get_col col df1)).
  { unfold df1. rewrite (get_col_as_map col _ df), get_col_set_col_map.
    rewrite <- (get_col_as_map col _ df).
    apply Forall_forall. intros c Hin.
    apply list_elem_of_In, in_map_iff in Hin as (c0 & <- & Hin).
    rewrite Forall_forall in Hall.
    now rewrite (Hall c0) by now apply list_elem_of_In. }
  rewrite fillna_median_no_number by now apply numeric_values_all_missing.
  pose proof (get_col_as_map col (fun c => c) df1) as Hid.
  rewrite map_id in Hid. rewrite Hid, get_col_set_col_map, <- Hid.
  exact H1.
Qed.

(** Whatever the table, as soon as it has a [title] column the [year] of
    every record is missing after the cleaning of the text columns and
    the extraction of the numerical features: the year is searched in the
    cleaned title, which has lost its parentheses. *)
Lemma year_always_missing (df : DataFrame) :
  has_col "title" df = true ->
  Forall (fun c => c = NaN)
    (get_col "year"
       (_extract_numerical_features to_numeric_str
          (_clean_text_columns str_num df))).
Proof.
  intros Htitle.
  destruct (clean_text_columns_title df Htitle) as [Hhas Hget].
  unfold _extract_numerical_features. rewrite Hhas.
  set (d := _clean_text_columns str_num df) in *.
  set (d1 := coerce_and_fill to_numeric_str "year" _).
  assert (H1 : Forall (fun c => c = NaN) (get_col "year" d1)).
  { unfold d1. apply coerce_and_fill_all_missing.
    rewrite (get_col_as_map "title" _ d), get_col_set_col_map.
    rewrite <- (get_col_as_map "title" _ d), Hget.
    apply Forall_forall. intros c Hin.
    apply list_elem_of_In, in_map_iff in Hin as (c0 & <- & Hin).
    apply in_map_iff in Hin as (c1 & <- & _). simpl.
    now rewrite extract_year_clean_text. }
  clearbody d1.
  set (d2 := if has_col "rating" d1 then _ else d1).
  assert (H2 : Forall (fun c => c = NaN) (get_col "year" d2)).
  { unfold d2. destruct (has_col "rating" d1); [|exact H1].
    now rewrite coerce_and_fill_other by discriminate. }
  clearbody d2.
  destruct (has_col "votes" d2); [|exact H2].
  now rewrite coerce_and_fill_other by discriminate.
Qed.

Lemma has_col_foldl_set_col (col : string)
    (vals : DataFrame -> string -> list Cell) (cols : list string)
    (df : DataFrame) :
  has_col col df = true ->
  has_col col (foldl (fun d c => set_col c (vals d c) d) df cols) = true.
Proof.
  revert df. induction cols as [|c cols IH]; intros df H; [exact H|].
  simpl. apply IH. now apply has_col_set_col_other.
Qed.

Lemma has_col_handle_missing_values (col : string) (df : DataFrame) :
  has_col col df = true -> has_col col (_handle_missing_values df) = true.
Proof.
  intros H. unfold _handle_missing_values.
  apply (has_col_foldl_set_col col
           (fun d c => fillna (median (get_col c d)) (get_col c d))).
  now apply (has_col_foldl_set_col col
               (fun d c => fillna (Str "Unknown") (get_col c d))).
Qed.

(** So it is after the first three steps of [clean_data]. *)
Lemma clean_numeric_year_missing (df : DataFrame) :
  has_col "title" df = true ->
  Forall (fun c => c = NaN)
    (get_col "year" (clean_numeric str_num to_numeric_str df)).
Proof.
  intros H. unfold clean_numeric.
  now apply year_always_missing, has_col_handle_missing_values.
Qed.

End Year.

(** C3, at a table in which no rating can be coerced: after the first
    three steps of [clean_data] the rating of both records is still
    missing.  So is their year, although both raw titles carry one. *)
Theorem clean_numeric_leaves_missing (str_num : Q -> string) :
  let cleaned :=
    clean_numeric str_num Examples.decimal_of_string Examples.unrated in
  get_col "rating" cleaned = [NaN; NaN] /\
  get_col "year" cleaned = [NaN; NaN] /\
  get_col "title" cleaned = [Str "akira 1988"; Str "paprika 2006"].
Proof. vm_compute. repeat split. Qed.

(** The same steps on a table with one missing rating among three: the
    missing one becomes the median of the other two. *)
Example clean_numeric_one_missing (str_num : Q -> string) :
  get_col "rating"
    (clean_numeric str_num Examples.decimal_of_string Examples.one_missing)
  = [Num 8; Num ((7.5 + 8) / 2); Num 7.5].
Proof. vm_compute. reflexivity. Qed.

(** *** The combined text *)

Section CombinedInfo.

Variable str_num : Q -> string.





End CombinedInfo.

(** *** Duplicates *)

Section Duplicates.

Variable subset : list string.

Local Abbreviation key := (row_key subset).

Lemma drop_duplicates_from_distinct (seen : list (list Cell))
    (rs : list (nat * gmap string Cell)) :
  distinct_keys subset rs = true ->
  (forall r, In r rs -> existsb (key_eqb (key r)) seen = false) ->
  drop_duplicates_from subset seen rs = rs.
Proof.
  revert seen. induction rs as [|r rs IH]; intros seen Hd Hseen; [reflexivity|].
  simpl in *. apply andb_true_iff in Hd as [Hr Hd].
  rewrite (Hseen r) by now left.
  f_equal. apply IH; [exact Hd|].
  intros r' Hin. simpl. apply orb_false_iff. split.
  - rewrite forallb_forall in Hr. specialize (Hr r' Hin).
    now apply negb_true_iff in Hr.
  - apply Hseen. now right.
Qed.

Lemma drop_duplicates_from_sublist (seen : list (list Cell))
    (rs : list (nat * gmap string Cell)) :
  sublist (drop_duplicates_from subset seen rs) rs.
Proof.
  revert seen. induction rs as [|r rs IH]; intros seen; simpl.
  - constructor.
  - destruct (existsb _ seen).
    + apply sublist_cons, IH.
    + apply sublist_skip, IH.
Qed.

Lemma drop_duplicates_from_unseen (seen : list (list Cell))
    (rs : list (nat * gmap string Cell)) (r : nat * gmap string Cell) :
  In r (drop_duplicates_from subset seen rs) ->
  existsb (key_eqb (key r)) seen = false.
Proof.
  revert seen. induction rs as [|r0 rs IH]; intros seen Hin; simpl in *.
  - destruct Hin.
  - destruct (existsb (key_eqb (key r0)) seen) eqn:E.
    + apply IH in Hin. simpl in Hin. now apply orb_false_iff in Hin as [_ ?].
    + destruct Hin as [<-|Hin]; [exact E|].
      apply IH in Hin. simpl in Hin. now apply orb_false_iff in Hin as [_ ?].
Qed.

Lemma drop_duplicates_from_is_distinct (seen : list (list Cell))
    (rs : list (nat * gmap string Cell)) :
  distinct_keys subset (drop_duplicates_from subset seen rs) = true.
Proof.
  revert seen. induction rs as [|r rs IH]; intros seen; simpl; [reflexivity|].
  destruct (existsb _ seen); [apply IH|].
  simpl. apply andb_true_iff. split; [|apply IH].
  apply forallb_forall. intros r' Hin.
  apply drop_duplicates_from_unseen in Hin. simpl in Hin.
  apply orb_false_iff in Hin as [Hin _]. now rewrite Hin.
Qed.

Lemma existsb_rev {A} (p : A -> bool) (l : list A) :
  existsb p (rev l) = existsb p l.
Proof.
  induction l as [|x l IH]; [reflexivity|].
  simpl. rewrite existsb_app, IH. simpl. rewrite orb_false_r. apply orb_comm.
Qed.

Lemma existsb_map_negb_forallb {A B} (p : B -> bool) (f : A -> B) (l : list A) :
  negb (existsb p (map f l)) = forallb (fun x => negb (p (f x))) l.
Proof.
  induction l as [|x l IH]; [reflexivity|].
  simpl. now rewrite negb_orb, IH.
Qed.

Lemma drop_duplicates_from_rows_at (keep : nat -> bool) (start : nat)
    (seen : list (list Cell)) (rs : list (nat * gmap string Cell)) :
  (forall i r, rs !! i = Some r ->
     keep (start + i)
     = negb (existsb (key_eqb (key r)) (map key (rev (take i rs)) ++ seen))) ->
  drop_duplicates_from subset seen rs = rows_at keep start rs.
Proof.
  revert start seen. induction rs as [|r rs IH]; intros start seen Hkeep;
    [reflexivity|].
  simpl.
  pose proof (Hkeep 0 r eq_refl) as H0. simpl in H0.
  rewrite Nat.add_0_r in H0. rewrite H0.
  assert (Hrest : drop_duplicates_from subset (key r :: seen) rs
                  = rows_at keep (S start) rs).
  { apply IH. intros i r' Hi.
    specialize (Hkeep (S i) r' Hi). simpl in Hkeep.
    rewrite Nat.add_succ_r in Hkeep. simpl. rewrite Hkeep.
    now rewrite map_app, <- app_assoc. }
  rewrite Hrest. now destruct (existsb _ seen).
Qed.

End Duplicates.

(** C8. Duplicate removal on a table that has no exact duplicates (on all
    columns but [genre_list]) leaves the row count, indeed the table,
    unchanged; on any table it keeps exactly the rows that are the first
    with their key, in the order of the table, so that its result is free
    of duplicates and a second removal changes nothing. *)
Theorem remove_duplicates_keeps_first (df : DataFrame) :
  let kept := _remove_duplicates df in
  (distinct_keys (key_columns df) (rows df) = true ->
     len kept = len df /\ kept = df) /\
  rows kept
  = rows_at (first_occurrence (key_columns df) (rows df)) 0 (rows df) /\
  sublist (rows kept) (rows df) /\
  distinct_keys (key_columns df) (rows kept) = true /\
  _remove_duplicates kept = kept.
Proof.
  intros kept.
  assert (Hsame : forall d : DataFrame,
            distinct_keys (key_columns d) (rows d) = true ->
            _remove_duplicates d = d).
  { intros [cols rs] Hd. unfold _remove_duplicates, drop_duplicates. simpl.
    f_equal. apply drop_duplicates_from_distinct; [exact Hd | reflexivity]. }
  split; [|split; [|split; [|split]]].
  - intros Hd. unfold kept. now rewrite (Hsame df Hd).
  - unfold kept, _remove_duplicates, drop_duplicates. simpl.
    apply drop_duplicates_from_rows_at.
    intros i r Hi. simpl. unfold first_occurrence. rewrite Hi, app_nil_r.
    rewrite map_rev, existsb_rev. symmetry. apply existsb_map_negb_forallb.
  - apply drop_duplicates_from_sublist.
  - apply drop_duplicates_from_is_distinct.
  - apply Hsame. apply drop_duplicates_from_is_distinct.
Qed.

End DataLoaderSpec.

(** ** The cleaning of a text *)

Module CleanTextSpec.
Import DataLoader CleanedText.







Lemma spaced_char_space : spaced_char " " = true.
Proof. reflexivity. Qed.













(** *** Cleaning a cleaned text *)









End CleanTextSpec.

(** ** The columns of a cleaned table *)

Module CleanColumnsSpec.
Import DataLoader CleanedText DataLoaderSpec.

Section Columns.

Variable str_num : Q -> string.

Lemma fillna_as_map (m : list Cell -> Cell) (col : string) (df : DataFrame) :
  fillna (m (get_col col df)) (get_col col df)
  = map (fun r => if isna (cell_of r.2 col) then m (get_col col df)
                  else cell_of r.2 col) (rows df).
Proof. unfold fillna, get_col at 2. now rewrite map_map. Qed.

(** Filling the columns of a list one after the other, each with a value
    computed from the column itself. *)
Lemma get_col_fill_columns (m : list Cell -> Cell) (cols : list string)
    (col : string) (df : DataFrame) :
  NoDup cols ->
  get_col col
    (foldl (fun d c => set_col c (fillna (m (get_col c d)) (get_col c d)) d)
       df cols)
  = if bool_decide (col ∈ cols)
    then fillna (m (get_col col df)) (get_col col df)
    else get_col col df.
Proof.
  intros Hnd. revert df. induction Hnd as [|c cols Hc Hnd IH]; intros df.
  - reflexivity.
  - simpl. rewrite IH. destruct (decide (col = c)) as [->|Hne].
    + rewrite (bool_decide_false _ Hc).
      rewrite bool_decide_true by now left.
      rewrite fillna_as_map. apply get_col_set_col_map.
    + assert (Hsame : get_col col
                        (set_col c (fillna (m (get_col c df)) (get_col c df)) df)
                      = get_col col df).
      { rewrite fillna_as_map. now apply get_col_set_col_other. }
      rewrite Hsame.
      destruct (decide (col ∈ cols)) as [Hin|Hnot].
      * rewrite !bool_decide_true; [reflexivity | now right | exact Hin].
      * rewrite !bool_decide_false; [reflexivity | | exact Hnot].
        intros [?|?]%elem_of_cons; contradiction.
Qed.

Lemma is_object_or_number (df : DataFrame) (col : string) :
  is_number df col = negb (is_object df col).
Proof. unfold is_number, is_object. now destruct (dtype _). Qed.

(** What [_handle_missing_values] makes of one column. *)
Lemma get_col_handle_missing_values (df : DataFrame) (col : string) :
  NoDup (columns df) ->
  col ∈ columns df ->
  get_col col (_handle_missing_values df)
  = fillna (if is_object df col then Str "Unknown" else median (get_col col df))
      (get_col col df).
Proof.
  intros Hnd Hcol. unfold _handle_missing_values.
  rewrite (get_col_fill_columns median) by now apply NoDup_filter.
  rewrite (get_col_fill_columns (fun _ => Str "Unknown"))
    by now apply NoDup_filter.
  destruct (is_object df col) eqn:E.
  - rewrite bool_decide_false, bool_decide_true; [reflexivity| |].
    + apply list_elem_of_filter. now split.
    + intros [H _]%list_elem_of_filter. rewrite is_object_or_number, E in H.
      discriminate H.
  - rewrite bool_decide_true.
    + rewrite bool_decide_false; [reflexivity|].
      intros [H _]%list_elem_of_filter. rewrite E in H. discriminate H.
    + apply list_elem_of_filter. rewrite is_object_or_number, E. now split.
Qed.

Lemma dtype_object_has_string (col : list Cell) :
  dtype col = Object <-> exists s, Str s ∈ col.
Proof.
  unfold dtype. induction col as [|c col IH]; simpl.
  - split; [discriminate|]. intros [s H]. now apply elem_of_nil in H.
  - destruct c as [|s|x]; simpl.
    + rewrite IH. split; intros [s H]; exists s; [now right|].
      apply elem_of_cons in H as [?|?]; [discriminate | assumption].
    + split; [|reflexivity]. intros _. exists s. now left.
    + rewrite IH. split; intros [s H]; exists s; [now right|].
      apply elem_of_cons in H as [?|?]; [discriminate | assumption].
Qed.

Lemma dtype_number_numeric_values (col : list Cell) :
  dtype col = Number -> (exists c, c ∈ col /\ isna c = false) ->
  numeric_values col <> [].
Proof.
  unfold dtype, numeric_values. induction col as [|c col IH]; simpl.
  - intros _ (c & H & _). now apply elem_of_nil in H.
  - destruct c as [|s|x]; simpl; [|discriminate|discriminate].
    intros Hd (c & [->|H]%elem_of_cons & Hc); [discriminate Hc|].
    apply IH; [exact Hd | now exists c].
Qed.

(** X25. After [_handle_missing_values] a column of the table that had
    at least one value has no missing cell, and the cells that held a
    value hold it still. *)
Theorem handle_missing_values_complete (df : DataFrame) (col : string) :
  NoDup (columns df) ->
  col ∈ columns df ->
  (exists c, c ∈ get_col col df /\ isna c = false) ->
  Forall (fun c => isna c = false) (get_col col (_handle_missing_values df)) /\
  forall i c, get_col col df !! i = Some c -> isna c = false ->
              get_col col (_handle_missing_values df) !! i = Some c.
Proof.
  intros Hnd Hcol Hsome. rewrite get_col_handle_missing_values by assumption.
  split.
  - unfold is_object. destruct (dtype (get_col col df)) eqn:E.
    + unfold fillna. apply Forall_forall. intros c Hin.
      apply list_elem_of_In, in_map_iff in Hin as (c0 & <- & _).
      now destruct c0.
    + destruct (fillna_median_complete (get_col col df)) as (m & _ & H & _);
        [now apply dtype_number_numeric_values | exact H].
  - intros i c Hi Hc. unfold fillna.
    change (map ?f ?l) with (f <$> l). rewrite list_lookup_fmap, Hi. simpl.
    now rewrite Hc.
Qed.

(** The step of [_clean_text_columns] for one column. *)
Lemma get_col_clean_text_columns_from (cols : list string) (col : string)
    (df : DataFrame) :
  NoDup cols ->
  let df' :=
    foldl (fun d col =>
             if has_col col d
             then
               let d := set_col col (map (fun c => Str (str_cell str_num c))
                                       (get_col col d)) d in
               set_col col
                 (map (fun c => Str (_clean_text (str_cell str_num c)))
                    (get_col col d)) d
             else d)
      df cols in
  columns df' = columns df /\
  get_col col df'
  = if bool_decide (col ∈ cols) && has_col col df
    then map (fun c => Str (_clean_text (str_cell str_num c))) (get_col col df)
    else get_col col df.
Proof.
  intros Hnd. revert df. induction Hnd as [|c cols Hc Hnd IH]; intros df.
  - split; [reflexivity|]. cbn [foldl].
    now rewrite bool_decide_false by apply not_elem_of_nil.
  - cbn [foldl]. cbv zeta.
    set (d1 := if has_col c df then _ else df).
    assert (Hcols : columns d1 = columns df).
    { unfold d1. destruct (has_col c df) eqn:E; [|reflexivity].
      unfold set_col at 1. simpl.
      rewrite has_col_set_col. unfold set_col. simpl. now rewrite E. }
    destruct (IH d1) as [Hc' Hg]. cbv zeta in Hc', Hg. split.
    + now rewrite Hc'.
    + rewrite Hg. clear Hg Hc'.
      assert (Hhas : has_col col d1 = has_col col df)
        by (unfold has_col; now rewrite Hcols).
      rewrite Hhas. destruct (decide (col = c)) as [->|Hne].
      * rewrite (bool_decide_false _ Hc). simpl.
        rewrite bool_decide_true by now left. simpl.
        unfold d1. destruct (has_col c df); [|reflexivity].
        apply clean_column_same.
      * assert (Hsame : get_col col d1 = get_col col df).
        { unfold d1. destruct (has_col c df); [|reflexivity].
          now apply clean_column_other. }
        rewrite Hsame.
        destruct (decide (col ∈ cols)) as [Hin|Hnot].
        -- rewrite !bool_decide_true; [reflexivity | now right | exact Hin].
        -- rewrite !bool_decide_false; [reflexivity | | exact Hnot].
           intros [?|?]%elem_of_cons; contradiction.
Qed.

Lemma NoDup_text_columns :
  NoDup ["title"; "genre"; "description"; "director"; "cast"].
Proof.
  repeat (apply NoDup_cons; split;
          [intros H; repeat (apply elem_of_cons in H as [H|H];
                             [discriminate H|]);
           now apply elem_of_nil in H|]).
  apply NoDup_nil_2.
Qed.

Lemma get_col_clean_text_columns (df : DataFrame) (col : string) :
  get_col col (_clean_text_columns str_num df)
  = if bool_decide (col ∈ ["title"; "genre"; "description"; "director"; "cast"])
       && has_col col df
    then map (fun c => Str (_clean_text (str_cell str_num c))) (get_col col df)
    else get_col col df.
Proof.
  exact (proj2 (get_col_clean_text_columns_from _ col df NoDup_text_columns)).
Qed.


Lemma isna_str_unknown (c : Cell) (v : Cell) :
  isna c = true -> (if isna c then v else c) = v.
Proof. now intros ->. Qed.

(** X27. The placeholder of a missing text depends on the column it is in.
    After [_handle_missing_values] and [_clean_text_columns] a cell that
    was missing in one of the five text columns reads ['unknown'] when the
    column holds a string somewhere, and ['Unknown'] when the column holds
    no value at all. *)
Theorem missing_text_placeholder (df : DataFrame) (col : string) (i : nat) :
  NoDup (columns df) ->
  col ∈ ["title"; "genre"; "description"; "director"; "cast"] ->
  col ∈ columns df ->
  get_col col df !! i = Some NaN ->
  ((exists s, Str s ∈ get_col col df) ->
   get_col col (_clean_text_columns str_num (_handle_missing_values df)) !! i
   = Some (Str "unknown")) /\
  (Forall (fun c => c = NaN) (get_col col df) ->
   get_col col (_clean_text_columns str_num (_handle_missing_values df)) !! i
   = Some (Str "Unknown")).
Proof.
  intros Hnd Htext Hcol Hi.
  rewrite get_col_clean_text_columns, bool_decide_true by exact Htext.
  rewrite has_col_handle_missing_values
    by (unfold has_col; now rewrite bool_decide_true).
  simpl. rewrite get_col_handle_missing_values by assumption.
  change (map ?f ?l) with (f <$> l). rewrite list_lookup_fmap.
  unfold fillna. change (map ?f ?l) with (f <$> l).
  rewrite list_lookup_fmap, Hi. simpl. split.
  - intros Hs%dtype_object_has_string. unfold is_object. now rewrite Hs.
  - intros Hall. unfold is_object.
    destruct (dtype (get_col col df)) eqn:E.
    + apply dtype_object_has_string in E as [s Hs].
      rewrite Forall_forall in Hall. now specialize (Hall _ Hs).
    + assert (Hm : median (get_col col df) = NaN)
        by now apply median_missing_iff, numeric_values_all_missing.
      now rewrite Hm.
Qed.

End Columns.
End CleanColumnsSpec.

(** ** The records of a cleaned table *)

Module RecordsSpec.
Import DataLoader DataLoaderSpec AnimeInfo.

Section Coercion.

Variable to_numeric_str : string -> option Q.



End Coercion.

(** *** Keys *)

Lemma cell_eqb_refl (c : Cell) : cell_eqb c c = true.
Proof.
  destruct c; simpl; [reflexivity | apply String.eqb_refl |].
  apply Qeq_bool_iff. reflexivity.
Qed.

Lemma cell_eqb_sym (c d : Cell) : cell_eqb c d = cell_eqb d c.
Proof.
  destruct c, d; simpl; try reflexivity; [apply String.eqb_sym|].
  apply eq_true_iff_eq. rewrite !Qeq_bool_iff. split; intros H; now symmetry.
Qed.

Lemma cell_eqb_trans (c d e : Cell) :
  cell_eqb c d = true -> cell_eqb d e = true -> cell_eqb c e = true.
Proof.
  destruct c, d, e; simpl; try discriminate; try reflexivity.
  - intros ->%String.eqb_eq. exact id.
  - rewrite !Qeq_bool_iff. intros H1 H2. now rewrite H1.
Qed.

Lemma key_eqb_refl (k : list Cell) : key_eqb k k = true.
Proof. induction k as [|c k IH]; simpl; [reflexivity|]. now rewrite cell_eqb_refl. Qed.

Lemma key_eqb_sym (k l : list Cell) : key_eqb k l = key_eqb l k.
Proof.
  revert l. induction k as [|c k IH]; intros [|d l]; simpl; try reflexivity.
  now rewrite cell_eqb_sym, IH.
Qed.

Lemma key_eqb_trans (k l m : list Cell) :
  key_eqb k l = true -> key_eqb l m = true -> key_eqb k m = true.
Proof.
  revert l m. induction k as [|c k IH]; intros [|d l] [|e m]; simpl;
    try discriminate; try reflexivity.
  intros [H1 H2]%andb_true_iff [H3 H4]%andb_true_iff.
  now rewrite (cell_eqb_trans c d e), (IH l m).
Qed.

Lemma drop_duplicates_from_covers (subset : list string)
    (seen : list (list Cell)) (rs : list (nat * gmap string Cell))
    (r : nat * gmap string Cell) :
  r ∈ rs ->
  existsb (key_eqb (row_key subset r)) seen = true \/
  existsb (fun r' => key_eqb (row_key subset r') (row_key subset r))
    (drop_duplicates_from subset seen rs) = true.
Proof.
  revert seen. induction rs as [|r0 rs IH]; intros seen Hin.
  - now apply elem_of_nil in Hin.
  - simpl. apply elem_of_cons in Hin as [->|Hin].
    + destruct (existsb (key_eqb (row_key subset r0)) seen) eqn:E; [now left|].
      right. simpl. now rewrite key_eqb_refl.
    + destruct (IH (row_key subset r0 :: seen) Hin) as [H|H].
      * simpl in H. apply orb_true_iff in H as [H|H]; [|now left].
        destruct (existsb (key_eqb (row_key subset r0)) seen) eqn:E.
        -- left. apply existsb_exists in E as (k & Hk & E).
           apply existsb_exists. exists k. split; [exact Hk|].
           now apply (key_eqb_trans _ (row_key subset r0)).
        -- right. simpl. now rewrite key_eqb_sym, H.
      * right. destruct (existsb (key_eqb (row_key subset r0)) seen);
          [exact H|]. simpl. rewrite H. apply orb_true_r.
Qed.

(** X29. [_remove_duplicates] loses no record: every row of the table has a
    row with the same key in the result, and the result has no more rows
    than the table. *)
Theorem remove_duplicates_complete (df : DataFrame) :
  Forall (fun r =>
            existsb (fun r' => key_eqb (row_key (key_columns df) r')
                                 (row_key (key_columns df) r))
              (rows (_remove_duplicates df)) = true)
    (rows df) /\
  len (_remove_duplicates df) <= len df.
Proof.
  split.
  - apply Forall_forall. intros r Hin.
    destruct (drop_duplicates_from_covers (key_columns df) [] (rows df) r Hin)
      as [H|H]; [discriminate H | exact H].
  - unfold len. apply sublist_length.
    apply drop_duplicates_from_sublist.
Qed.

(** *** [get_anime_info] *)

Section Info.

Variable str_int : Z -> string.

Lemma iloc_in_range (df : DataFrame) (i : Z) :
  (- Z.of_nat (len df) <= i < Z.of_nat (len df))%Z ->
  exists r, iloc df i = Some r.
Proof.
  intros Hi. unfold iloc.
  destruct (0 <=? i)%Z eqn:E0.
  - apply Z.leb_le in E0. apply lookup_lt_is_Some_2. unfold len in Hi. lia.
  - apply Z.leb_gt in E0.
    destruct (- Z.of_nat (len df) <=? i)%Z eqn:E1.
    + apply lookup_lt_is_Some_2. unfold len in *. lia.
    + apply Z.leb_gt in E1. lia.
Qed.

(** X30. [get_anime_info] guards the upper bound only.  An id of at least the
    number of records raises [ValueError]; a negative id is accepted and
    counts from the end, [-1] being the last record, so that it returns
    what the id increased by the number of records returns; an id below
    minus the number of records falls through to the [IndexError] of the
    table. *)
Theorem get_anime_info_bounds (df : DataFrame) (anime_id : Z) :
  let n := Z.of_nat (len df) in
  ((n <= anime_id)%Z ->
   get_anime_info str_int df anime_id
   = RaisesValueError ("Anime ID " +:+ str_int anime_id +:+ " is out of range")) /\
  ((- n <= anime_id < n)%Z ->
   exists info, get_anime_info str_int df anime_id = Returns info) /\
  ((- n <= anime_id < 0)%Z ->
   get_anime_info str_int df anime_id
   = get_anime_info str_int df (anime_id + n)) /\
  ((anime_id < - n)%Z ->
   get_anime_info str_int df anime_id
   = RaisesIndexError "single positional indexer is out-of-bounds").
Proof.
  intros n. unfold get_anime_info. fold n. repeat split.
  - intros H. apply Z.leb_le in H. now rewrite H.
  - intros H. rewrite (proj2 (Z.leb_gt _ _)) by lia.
    destruct (iloc_in_range df anime_id H) as [r ->]. eauto.
  - intros H. rewrite !(proj2 (Z.leb_gt _ _)) by lia.
    assert (Hi : iloc df anime_id = iloc df (anime_id + n)).
    { unfold iloc. fold n.
      rewrite (proj2 (Z.leb_gt 0 anime_id)) by lia.
      rewrite (proj2 (Z.leb_le (- n) anime_id)) by lia.
      rewrite (proj2 (Z.leb_le 0 (anime_id + n))) by lia.
      f_equal. lia. }
    now rewrite Hi.
  - intros H. rewrite (proj2 (Z.leb_gt _ _)) by lia.
    unfold iloc. fold n.
    rewrite (proj2 (Z.leb_gt 0 anime_id)) by lia.
    now rewrite (proj2 (Z.leb_gt (- n) anime_id)) by lia.
Qed.

End Info.

End RecordsSpec.

(** ** The vector index manager *)

Module VectorStoreSpec.
Import VectorStore.

Ltac run :=
  unfold try_except, bind, ret, raise, gets, modify, set_self,
    set_persist_dir in *; simpl in *.

(** *** Selecting the provider *)

(** With the model name ["openai"] and no credential, the fallback provider
    is selected and nothing is raised. *)
Lemma initialize_embeddings_falls_back (o : AnimeVectorStore) (w : World) :
  embedding_model o = "openai" ->
  key_missing (OPENAI_API_KEY w) = true ->
  initialize_embeddings (mkSt o w)
  = (Ok tt,
     mkSt (set_embeddings (Some HuggingFaceEmbeddings)
             (set_embedding_model "huggingface" o)) w).
Proof.
  intros Hm Hk. unfold initialize_embeddings. run.
  rewrite Hm, Hk. reflexivity.
Qed.

(** What [initialize_embeddings] does to an object that has no provider
    yet. *)
Lemma initialize_embeddings_selects (o : AnimeVectorStore) (w : World) :
  embeddings o = None ->
  initialize_embeddings (mkSt o w)
  = match selected_provider (embedding_model o) (OPENAI_API_KEY w) with
    | Some _ => (Ok tt, mkSt (with_provider o w) w)
    | None => (Raise (mkExn ValueError "Unsupported embedding model"), mkSt o w)
    end.
Proof.
  intros He. unfold initialize_embeddings, with_provider, selected_provider,
    model_after.
  destruct o as [model size overlap emb vs ts]. simpl in He. subst emb. run.
  destruct (String.eqb model "openai") eqn:E1.
  - apply String.eqb_eq in E1. subst model.
    destruct (key_missing (OPENAI_API_KEY w)) eqn:E2; reflexivity.
  - simpl. destruct (String.eqb model "huggingface") eqn:E2; reflexivity.
Qed.

Lemma embeddings_with_provider (o : AnimeVectorStore) (w : World) :
  embeddings (with_provider o w) = provider_of o w.
Proof.
  unfold with_provider, provider_of.
  destruct (embeddings o) eqn:E; [exact E | reflexivity].
Qed.

Lemma ensure_embeddings_run (o : AnimeVectorStore) (w : World) :
  ensure_embeddings (mkSt o w)
  = match provider_of o w with
    | Some _ => (Ok tt, mkSt (with_provider o w) w)
    | None => (Raise (mkExn ValueError "Unsupported embedding model"), mkSt o w)
    end.
Proof.
  unfold provider_of, ensure_embeddings, with_provider. run.
  destruct (embeddings o) eqn:He; [reflexivity|].
  rewrite initialize_embeddings_selects by exact He.
  unfold with_provider. now rewrite He.
Qed.

(** *** The steps of a build *)




(** *** Introspection *)


(** What it reports does not depend on the provider of the object. *)
Lemma get_collection_info_ignores_provider (o : AnimeVectorStore) (w : World)
    (e : option Embeddings) :
  fst (get_collection_info (mkSt (set_embeddings e o) w))
  = fst (get_collection_info (mkSt o w)).
Proof.
  destruct o as [model size overlap emb [vs|] ts], w as [csv [] key];
    reflexivity.
Qed.

Section Build.

Variable split_text : nat -> nat -> string -> list string.



(** Into a directory that holds a collection, it adds them to the entries
    already there. *)
Lemma create_vector_store_appends (o : AnimeVectorStore) (w : World)
    (e : Embeddings) (chunks : list Document)
    (md : option (gmap string string)) (es : list Entry) :
  provider_of o w = Some e ->
  chunks <> [] ->
  persist_dir w = Index md es ->
  create_vector_store chunks (mkSt o w)
  = (Ok (mkChroma e),
     mkSt (set_vector_store (Some (mkChroma e)) (with_provider o w))
       (with_dir (Index md (es ++ entries_of e chunks)) w)).
Proof.
  intros Hp Hne Hdir. unfold create_vector_store, try_except, bind.
  rewrite ensure_embeddings_run, Hp.
  unfold gets at 1. simpl. rewrite embeddings_with_provider, Hp.
  unfold from_documents, open_chroma, add_documents, with_dir, entries_of.
  destruct w as [csv d key]. simpl in Hdir. subst d.
  destruct chunks as [|c chunks]; [contradiction|]. reflexivity.
Qed.






(** *** Loading *)


(** A readable index is loaded with the provider the object has or
    selects. *)
Lemma load_existing_vector_store_index (o : AnimeVectorStore) (w : World)
    (e : Embeddings) (md : option (gmap string string)) (es : list Entry) :
  persist_dir w = Index md es ->
  provider_of o w = Some e ->
  load_existing_vector_store (mkSt o w)
  = (Ok (Some (mkChroma e)),
     mkSt (set_vector_store (Some (mkChroma e)) (with_provider o w)) w).
Proof.
  intros Hdir Hp. unfold load_existing_vector_store, try_except at 1, bind at 1.
  rewrite ensure_embeddings_run, Hp.
  unfold bind, gets at 1. simpl. rewrite Hdir. simpl.
  unfold try_except, bind, gets, open_chroma. simpl.
  rewrite embeddings_with_provider, Hp. simpl. unfold bind, gets. simpl.
  now rewrite Hdir.
Qed.





(** *** The claims *)



Lemma incremental_update_undefined :
  "_incremental_update" ∉ class_attributes.
Proof. apply (bool_decide_unpack _). vm_compute. exact I. Qed.

(** C9. When the persisted index loads, a build with [force_rebuild=False]
    and [incremental_update=True] raises [AttributeError]: the object has
    no [_incremental_update].  No store is returned, and the state is the
    one the load left: nothing was compared or rebuilt. *)
Theorem incremental_update_raises (o : AnimeVectorStore) (w : World)
    (existing_store : Chroma) (st : St) :
  load_existing_vector_store (mkSt o w) = (Ok (Some existing_store), st) ->
  build_vector_store split_text false true (mkSt o w)
  = (Raise (mkExn AttributeError
              "'AnimeVectorStore' object has no attribute '_incremental_update'"),
     st).
Proof.
  intros Hload. unfold build_vector_store, try_except, bind.
  cbn [negb]. rewrite Hload. unfold call_incremental_update.
  rewrite bool_decide_eq_false_2 by apply incremental_update_undefined.
  reflexivity.
Qed.

(** Without [incremental_update] the loaded store is returned as it is. *)
Lemma existing_store_reused (o : AnimeVectorStore) (w : World)
    (existing_store : Chroma) (o' : AnimeVectorStore) (w' : World) :
  load_existing_vector_store (mkSt o w) = (Ok (Some existing_store), mkSt o' w') ->
  build_vector_store split_text false false (mkSt o w)
  = (Ok existing_store, mkSt (set_vector_store (Some existing_store) o') w').
Proof.
  intros Hload. unfold build_vector_store, try_except, bind. simpl.
  rewrite Hload. reflexivity.
Qed.

End Build.

(** C6, at a store built with no credential configured: the fallback
    provider is selected without an exception, the index is built with
    it, and [get_collection_info] reports the dimension ["unknown"], not
    the 384 of the fallback provider. *)
Theorem fallback_dimension_unknown :
  let w := Examples.world_with Examples.short_corpus NoDirectory None in
  let st0 := __init__ "openai" 1000 200 w in
  let st1 := snd (initialize_embeddings st0) in
  let st2 := snd (build_vector_store Examples.window_split false false st1) in
  fst (initialize_embeddings st0) = Ok tt /\
  embeddings (self st1) = Some HuggingFaceEmbeddings /\
  fst (build_vector_store Examples.window_split false false st1)
  = Ok (mkChroma HuggingFaceEmbeddings) /\
  fst (get_collection_info st2) = Ok (mkInfo "langchain" 2 "unknown") /\
  dimension HuggingFaceEmbeddings = 384.
Proof. vm_compute. repeat split. Qed.

End VectorStoreSpec.

(** ** The vector index manager: documents, failures, reuse *)

Module VectorStoreFacts.
Import VectorStore VectorStoreSpec.

(** *** The documents of a CSV file *)

Lemma documents_from_spec (df : list (option string)) (start : nat)
    (d : Document) :
  In d (documents_from start df) <->
  start <= anime_id d /\
  df !! (anime_id d - start) = Some (Some (page_content d)).
Proof.
  revert start. induction df as [|[text|] df IH]; intros start; simpl.
  - split; [intros [] | intros [_ H]; discriminate].
  - rewrite IH. split.
    + intros [<- | [Hle Hget]]; simpl.
      * split; [lia|]. now rewrite Nat.sub_diag.
      * split; [lia|].
        replace (anime_id d - start) with (S (anime_id d - S start)) by lia.
        exact Hget.
    + intros [Hle Hget].
      destruct (decide (anime_id d = start)) as [Heq|Hne].
      * left. rewrite Heq, Nat.sub_diag in Hget. simpl in Hget.
        destruct d as [c i]. simpl in *. congruence.
      * right. split; [lia|].
        replace (anime_id d - start) with (S (anime_id d - S start)) in Hget
          by lia.
        exact Hget.
  - rewrite IH. split.
    + intros [Hle Hget]. split; [lia|].
      replace (anime_id d - start) with (S (anime_id d - S start)) by lia.
      exact Hget.
    + intros [Hle Hget].
      destruct (decide (anime_id d = start)) as [Heq|Hne].
      * rewrite Heq, Nat.sub_diag in Hget. discriminate.
      * split; [lia|].
        replace (anime_id d - start) with (S (anime_id d - S start)) in Hget
          by lia.
        exact Hget.
Qed.

Lemma documents_from_increasing (df : list (option string)) (start : nat)
    (i j : nat) (di dj : Document) :
  i < j ->
  documents_from start df !! i = Some di ->
  documents_from start df !! j = Some dj ->
  anime_id di < anime_id dj.
Proof.
  revert start i j. induction df as [|[text|] df IH]; intros start i j Hij Hi Hj;
    simpl in *.
  - discriminate.
  - destruct j as [|j]; [lia|]. simpl in Hj.
    destruct i as [|i].
    + injection Hi as <-. simpl.
      assert (Hin : In dj (documents_from (S start) df))
        by (apply list_elem_of_In; eapply list_elem_of_lookup_2; exact Hj).
      apply documents_from_spec in Hin as [Hle _]. lia.
    + simpl in Hi. apply (IH (S start) i j); [lia | exact Hi | exact Hj].
  - apply (IH (S start) i j Hij Hi Hj).
Qed.

(** X10. [create_documents] makes a document of exactly the rows that hold a
    text: a document with text [t] and [anime_id] [n] is in its result if
    and only if row [n] of the file holds [t].  The documents come in the
    order of the rows, so their ids increase, and a row without text costs
    no id: the id is the position of the row in the file. *)
Theorem create_documents_rows (df : list (option string)) (st : St) :
  exists documents,
    create_documents df st = (Ok documents, st) /\
    (forall d,
       In d documents <->
       df !! anime_id d = Some (Some (page_content d))) /\
    (forall i j di dj,
       i < j ->
       documents !! i = Some di -> documents !! j = Some dj ->
       anime_id di < anime_id dj) /\
    length documents <= length df.
Proof.
  exists (documents_from 0 df). split; [reflexivity|]. split; [|split].
  - intros d. rewrite documents_from_spec, Nat.sub_0_r.
    split; [now intros [_ H] | intros H; split; [lia | exact H]].
  - intros i j di dj. apply documents_from_increasing.
  - generalize 0. induction df as [|[text|] df IH]; intros n; simpl;
      [lia | specialize (IH (S n)); lia | specialize (IH (S n)); lia].
Qed.

(** *** Selecting the provider, again *)

(** X11. [initialize_embeddings] raises, a [ValueError], exactly when the
    object has no provider yet and its model name is neither ["openai"]
    nor ["huggingface"]; an unsupported name on an object that has a
    provider passes. *)
Theorem initialize_embeddings_raises_iff (o : AnimeVectorStore) (w : World) :
  (exists x st, initialize_embeddings (mkSt o w) = (Raise x, st)) <->
  embeddings o = None /\
  embedding_model o <> "openai" /\ embedding_model o <> "huggingface".
Proof.
  unfold initialize_embeddings.
  destruct o as [model size overlap emb vs ts]. run.
  destruct (String.eqb model "openai") eqn:E1.
  - apply String.eqb_eq in E1. subst model.
    split; [|intros (_ & H & _); now destruct H].
    destruct (key_missing (OPENAI_API_KEY w)); simpl;
      intros (x & st & H); discriminate.
  - apply String.eqb_neq in E1. simpl.
    destruct (String.eqb model "huggingface") eqn:E2.
    + apply String.eqb_eq in E2. subst model. simpl.
      split; [intros (x & st & H); discriminate|].
      intros (_ & _ & H). now destruct H.
    + apply String.eqb_neq in E2. simpl. destruct emb as [e|]; simpl.
      * split; [intros (x & st & H); discriminate | intros (H & _); discriminate].
      * split; [auto | intros _; eauto].
Qed.

(** X12. Once the fallback was taken, it stays: the object that
    [initialize_embeddings] leaves when it finds no credential selects the
    fallback provider again in every world, also in one where the
    credential is configured. *)
Theorem fallback_is_sticky (o : AnimeVectorStore) (w w' : World) :
  embedding_model o = "openai" ->
  key_missing (OPENAI_API_KEY w) = true ->
  let o1 := self (snd (initialize_embeddings (mkSt o w))) in
  embeddings o1 = Some HuggingFaceEmbeddings /\
  embedding_model o1 = "huggingface" /\
  initialize_embeddings (mkSt o1 w') = (Ok tt, mkSt o1 w').
Proof.
  intros Hm Hk. rewrite (initialize_embeddings_falls_back o w Hm Hk).
  destruct o as [model size overlap emb vs ts]. cbn. repeat split.
Qed.

Section Build.

Variable split_text : nat -> nat -> string -> list string.

(** *** Where the entries come from *)



(** *** Builds that fail *)



(** *** Reuse *)

(** X15. With [force_rebuild=False] a readable index is reused as it is: the
    build returns a handle with the provider the object has or selects,
    reads no CSV file (it succeeds without one) and leaves the directory,
    entry for entry, as it found it.  It does not look at the provider
    that embedded the entries. *)
Theorem readable_index_is_reused (o : AnimeVectorStore) (w : World)
    (e : Embeddings) (md : option (gmap string string)) (es : list Entry) :
  persist_dir w = Index md es ->
  provider_of o w = Some e ->
  build_vector_store split_text false false (mkSt o w)
  = (Ok (mkChroma e),
     mkSt (set_vector_store (Some (mkChroma e)) (with_provider o w)) w).
Proof.
  intros Hdir Hp.
  rewrite (existing_store_reused split_text o w (mkChroma e)
             (set_vector_store (Some (mkChroma e)) (with_provider o w)) w).
  - destruct o as [model size overlap emb vs ts]. unfold with_provider.
    simpl. now destruct emb.
  - now apply load_existing_vector_store_index with (md := md) (es := es).
Qed.

(** *** Deleting *)



End Build.

(** *** Searching *)

Section Search.

Variable split_text : nat -> nat -> string -> list string.
Variable collection_search :
  list Entry -> Embeddings -> string -> nat -> option (gmap string string) ->
  Result (list Document).


End Search.

(** *** The stored hash *)

Lemma lstrip_no_space (s : string) :
  all_chars (fun a => negb (is_space a)) s = true -> lstrip s = s.
Proof.
  destruct s as [|a s]; [reflexivity|]. simpl.
  intros [Ha _]%andb_true_iff. apply negb_true_iff in Ha. now rewrite Ha.
Qed.

Lemma rstrip_no_space (s : string) :
  all_chars (fun a => negb (is_space a)) s = true -> rstrip s = s.
Proof.
  induction s as [|a s IH]; [reflexivity|]. simpl.
  intros [Ha Hs]%andb_true_iff. rewrite (IH Hs).
  apply negb_true_iff in Ha. rewrite Ha. now destruct s.
Qed.

Lemma universal_newlines_no_space (s : string) :
  all_chars (fun a => negb (is_space a)) s = true -> universal_newlines s = s.
Proof.
  induction s as [|a s IH]; [reflexivity|]. simpl.
  intros [Ha Hs]%andb_true_iff.
  destruct (Ascii.eqb_spec a "013") as [->|_]; [discriminate Ha|].
  now rewrite IH.
Qed.

(** A hash written by [_store_csv_hash] is read back by
    [_get_stored_hash] as it was written when it holds no white space, as
    a hexadecimal digest does.  Where the directory is missing the write
    raises, and with no file the read returns [None]. *)
Theorem stored_hash_round_trip (f : HashFile) (hash_value : string) :
  (hash_dir_exists f = true ->
   all_chars (fun a => negb (is_space a)) hash_value = true ->
   (_store_csv_hash hash_value ;;; _get_stored_hash) f
   = (Ok (Some hash_value), mkHashFile true (Some hash_value))) /\
  (hash_dir_exists f = false ->
   exists x, _store_csv_hash hash_value f = (Raise x, f) /\
             exn_class x = FileNotFoundError) /\
  (csv_hash_txt f = None -> _get_stored_hash f = (Ok None, f)).
Proof.
  split; [|split].
  - intros Hdir Hns. unfold bind, _store_csv_hash, _get_stored_hash, gets, ret.
    rewrite Hdir. unfold bind. cbn [hash_dir_exists csv_hash_txt].
    unfold strip.
    now rewrite universal_newlines_no_space, lstrip_no_space, rstrip_no_space.
  - intros Hdir. unfold _store_csv_hash. rewrite Hdir. eauto.
  - intros Hnone. unfold _get_stored_hash, bind, gets, ret. rewrite Hnone.
    now destruct (hash_dir_exists f).
Qed.

End VectorStoreFacts.

(** ** The recommendation engine *)

Module RecommenderSpec.
Import VectorStore Recommender.

Lemma get_similar_movies_run (rec : AnimeRecommender)
    (search : string -> nat -> Result (list Document)) (q : string) (k : nat) :
  vector_store rec = Some search ->
  get_similar_movies q k rec = (search q k, rec).
Proof.
  intros H. unfold get_similar_movies, try_except, bind, gets, call, raise.
  rewrite H. now destruct (search q k).
Qed.

(** C5, as the code has it. When the response of the chain has none of the
    fields ["output"], ["answer"] and ["result"], [get_recommendations]
    takes the text ["No recommendations generated"] for the answer and
    returns, without raising, a result whose recommendations text is that
    placeholder between the two delimiter lines, with the query, the
    previews of the similar items, the time and the model name. *)
Theorem get_recommendations_placeholder
    (now : string) (rec : AnimeRecommender) (user_query : string)
    (invoke : string -> Result (gmap string string))
    (search : string -> nat -> Result (list Document))
    (response : gmap string string) (similar : list Document) :
  retrieval_chain rec = Some invoke ->
  invoke user_query = Ok response ->
  vector_store rec = Some search ->
  search user_query 5 = Ok similar ->
  response !! "output" = None ->
  response !! "answer" = None ->
  response !! "result" = None ->
  get_recommendations now user_query rec
  = (Ok (mkRecommendations user_query
           (format_answer "No recommendations generated")
           (map (fun doc =>
                   mkSimilar (prefix 200 (page_content doc) +:+ "...")
                     (anime_id doc))
              similar)
           now (model_name rec)),
     rec).
Proof.
  intros Hchain Hinvoke Hvs Hsearch Ho Ha Hr.
  unfold get_recommendations, try_except, bind, gets at 1. rewrite Hchain.
  unfold call at 1. rewrite Hinvoke.
  rewrite (get_similar_movies_run rec search) by exact Hvs.
  rewrite Hsearch. unfold answer_of. rewrite Ho, Ha, Hr. reflexivity.
Qed.

(** Any of the three fields is taken as the answer, ["output"] before
    ["answer"] before ["result"]. *)
Lemma answer_of_result (response : gmap string string) (text : string) :
  response !! "output" = None ->
  response !! "answer" = None ->
  response !! "result" = Some text ->
  answer_of response = text.
Proof. intros Ho Ha Hr. unfold answer_of. now rewrite Ho, Ha, Hr. Qed.

Section Floats.

Variable float_of_string : string -> option PyFloat.
Variable str_float : PyFloat -> string.

Local Abbreviation rate_documents' := (rate_documents float_of_string).
Local Abbreviation rate_document' := (rate_document float_of_string).

Lemma rate_document_invalid (min_rating : PyFloat) (acc : list RatedMovie)
    (doc : Document) (s : string) :
  _parse_movie_info (page_content doc) !! "rating" = Some s ->
  float_of_string s = None ->
  rate_document' min_rating acc doc
  = Raise (mkExn ValueError ("could not convert string to float: " +:+ s)).
Proof.
  intros Hs Hf. unfold rate_document, rating_of. now rewrite Hs, Hf.
Qed.

Lemma rate_document_absent (min_rating : PyFloat) (acc : list RatedMovie)
    (doc : Document) :
  _parse_movie_info (page_content doc) !! "rating" = None ->
  rate_document' min_rating acc doc
  = Ok (if float_ge (Finite 0) min_rating then acc ++ [unrated_entry doc]
        else acc).
Proof.
  intros Hs. unfold rate_document, rating_of, unrated_entry. rewrite Hs.
  now destruct (float_ge (Finite 0) min_rating).
Qed.

Lemma rate_document_raises_value_error (min_rating : PyFloat)
    (acc : list RatedMovie) (doc : Document) (x : Exn) :
  rate_document' min_rating acc doc = Raise x -> exn_class x = ValueError.
Proof.
  unfold rate_document, rating_of.
  destruct (_ !! "rating") as [s|]; [destruct (float_of_string s)|].
  - destruct (float_ge _ _); discriminate.
  - intros [= <-]. reflexivity.
  - destruct (float_ge _ _); discriminate.
Qed.

(** One entry with an invalid rating makes the whole loop raise. *)
Lemma rate_documents_invalid (min_rating : PyFloat) (docs : list Document)
    (acc : list RatedMovie) (doc : Document) (s : string) :
  In doc docs ->
  _parse_movie_info (page_content doc) !! "rating" = Some s ->
  float_of_string s = None ->
  exists msg,
    rate_documents' min_rating acc docs = Raise (mkExn ValueError msg).
Proof.
  intros Hin Hs Hf. revert acc.
  induction docs as [|d docs IH]; intros acc; [destruct Hin|].
  simpl. destruct (rate_document' min_rating acc d) as [acc'|x] eqn:E.
  - destruct Hin as [->|Hin].
    + rewrite (rate_document_invalid _ _ _ s Hs Hf) in E. discriminate.
    + apply IH, Hin.
  - pose proof (rate_document_raises_value_error _ _ _ _ E) as Hc.
    destruct x as [c msg]. simpl in Hc. subst c. now exists msg.
Qed.

(** Entries without a rating are all left out when [0 >= min_rating] is
    false. *)
Lemma rate_documents_absent_dropped (min_rating : PyFloat)
    (docs : list Document) (acc : list RatedMovie) :
  (forall doc, In doc docs ->
     _parse_movie_info (page_content doc) !! "rating" = None) ->
  float_ge (Finite 0) min_rating = false ->
  rate_documents' min_rating acc docs = Ok acc.
Proof.
  intros Habs Hge. revert acc.
  induction docs as [|d docs IH]; intros acc; [reflexivity|].
  simpl. rewrite rate_document_absent by (apply Habs; now left).
  rewrite Hge. apply IH. intros doc Hin. apply Habs. now right.
Qed.

(** C10, as the code has it. If one of the retrieved entries has a rating
    field that [float] rejects, [get_recommendations_by_rating] raises
    [ValueError]; no entry is skipped for it.  An entry with no rating
    field raises nothing and gets the rating 0: it is kept, with that
    rating, when [0 >= min_rating], and left out otherwise, so that a
    retrieval of such entries only returns the empty list when
    [min_rating] is above 0. *)
Theorem rating_conversion_unguarded
    (rec : AnimeRecommender) (search : string -> nat -> Result (list Document))
    (min_rating : PyFloat) (limit : nat) (docs : list Document) :
  vector_store rec = Some search ->
  search ("movies with rating " +:+ str_float min_rating +:+ " or higher") limit
  = Ok docs ->
  (forall doc s,
     In doc docs ->
     _parse_movie_info (page_content doc) !! "rating" = Some s ->
     float_of_string s = None ->
     exists msg,
       get_recommendations_by_rating float_of_string str_float min_rating
         limit rec
       = (Raise (mkExn ValueError msg), rec)) /\
  (forall doc acc,
     _parse_movie_info (page_content doc) !! "rating" = None ->
     rate_document' min_rating acc doc
     = Ok (if float_ge (Finite 0) min_rating then acc ++ [unrated_entry doc]
           else acc)) /\
  ((forall doc, In doc docs ->
      _parse_movie_info (page_content doc) !! "rating" = None) ->
   float_ge (Finite 0) min_rating = false ->
   get_recommendations_by_rating float_of_string str_float min_rating limit rec
   = (Ok [], rec)).
Proof.
  intros Hvs Hsearch.
  assert (Hrun : get_recommendations_by_rating float_of_string str_float
                   min_rating limit rec
                 = (rate_documents' min_rating [] docs, rec)).
  { unfold get_recommendations_by_rating, try_except, bind.
    rewrite (get_similar_movies_run rec search) by exact Hvs.
    rewrite Hsearch. unfold call, raise.
    now destruct (rate_documents' min_rating [] docs). }
  split; [|split].
  - intros doc s Hin Hs Hf.
    destruct (rate_documents_invalid min_rating docs [] doc s Hin Hs Hf)
      as [msg Hmsg].
    exists msg. now rewrite Hrun, Hmsg.
  - intros doc acc Hs. now apply rate_document_absent.
  - intros Habs Hge. rewrite Hrun.
    now rewrite rate_documents_absent_dropped.
Qed.

End Floats.

End RecommenderSpec.

(** ** The query methods of the pipeline *)

Module QueriesSpec.
Import Recommender PipelineQueries.

Lemma get_similar_movies_keeps_state (q : string) (k : nat)
    (r : AnimeRecommender) :
  snd (get_similar_movies q k r) = r.
Proof.
  unfold get_similar_movies, try_except, bind, gets, call, raise.
  destruct (vector_store r) as [search|]; [|reflexivity].
  now destruct (search q k).
Qed.

Section Queries.

Variable now : string.

(** The engine's [get_recommendations] changes nothing in the engine. *)
Lemma get_recommendations_keeps_state (q : string) (r : AnimeRecommender) :
  snd (Recommender.get_recommendations now q r) = r.
Proof.
  unfold Recommender.get_recommendations, try_except, bind, gets, call, raise,
    ret.
  destruct (retrieval_chain r) as [invoke|]; [|reflexivity].
  destruct (invoke q) as [response|e]; [|reflexivity].
  pose proof (get_similar_movies_keeps_state q 5 r) as H.
  destruct (get_similar_movies q 5 r) as [[docs|e] r']; simpl in *; now subst.
Qed.

Lemma get_recommendations_run (q : string) (s : option AnimeRecommender) :
  PipelineQueries.get_recommendations now q s = (outcome now s q, s).
Proof.
  unfold PipelineQueries.get_recommendations, outcome, bind, gets.
  destruct s as [r|]; [|reflexivity].
  unfold try_except, on_recommender, raise.
  pose proof (get_recommendations_keeps_state q r) as H.
  destruct (Recommender.get_recommendations now q r) as [[res|e] r'];
    simpl in *; now subst.
Qed.

(** X4. [ask_question] never raises and leaves the state as it is.  Its answer
    is the recommendations text of the engine, or ["Error: "] followed by
    the message of what the engine raised; before the pipeline has set a
    recommender, that is the message that it is not initialized. *)
Theorem ask_question_answers (question : string)
    (s : option AnimeRecommender) :
  ask_question now question s
  = (Ok match outcome now s question with
        | Ok results => recommendations results
        | Raise e => "Error: " +:+ str_exn e
        end,
     s) /\
  fst (ask_question now question None)
  = Ok "Error: Recommender not initialized. Run pipeline first.".
Proof.
  assert (H : ask_question now question s
              = (Ok match outcome now s question with
                    | Ok results => recommendations results
                    | Raise e => "Error: " +:+ str_exn e
                    end, s)).
  { unfold ask_question, try_except, bind. rewrite get_recommendations_run.
    now destruct (outcome now s question). }
  split; [exact H|]. reflexivity.
Qed.

Lemma quick_step_run (results : gmap string QuickResult) (q : string)
    (s : option AnimeRecommender) :
  quick_step now results q s = (Ok (<[q := quick_value now s q]> results), s).
Proof.
  unfold quick_step, quick_value, try_except, bind.
  rewrite get_recommendations_run. now destruct (outcome now s q).
Qed.

Lemma quick_loop_run (queries : list string)
    (results : gmap string QuickResult) (s : option AnimeRecommender) :
  quick_loop now results queries s
  = (Ok (foldl (fun acc q => <[q := quick_value now s q]> acc) results queries),
     s).
Proof.
  revert results. induction queries as [|q queries IH]; intros results;
    [reflexivity|].
  simpl. unfold bind. rewrite quick_step_run. apply IH.
Qed.

Lemma lookup_foldl_insert {V} (f : string -> V) (queries : list string)
    (results : gmap string V) (q : string) :
  foldl (fun acc q => <[q := f q]> acc) results queries !! q
  = if decide (q ∈ queries) then Some (f q) else results !! q.
Proof.
  revert results. induction queries as [|q0 queries IH]; intros results.
  - simpl. destruct (decide (q ∈ [])) as [H|_]; [|reflexivity].
    now apply elem_of_nil in H.
  - simpl. rewrite IH.
    destruct (decide (q ∈ queries)) as [Hin|Hnot].
    + rewrite decide_True by now right. reflexivity.
    + destruct (decide (q = q0)) as [->|Hne].
      * rewrite decide_True by now left. apply lookup_insert_eq.
      * rewrite decide_False by (intros [?|?]%elem_of_cons; contradiction).
        now apply lookup_insert_ne.
Qed.

(** X5. [quick_recommendations] never raises.  Its dictionary has an entry for
    each of the queries and for nothing else, and the entry of a query is
    what that query alone comes to: the response, or the message of what
    was raised for it.  A query that fails does not affect the others. *)
Theorem quick_recommendations_entries (queries : option (list string))
    (s : option AnimeRecommender) :
  exists results,
    quick_recommendations now queries s = (Ok results, s) /\
    forall q,
      results !! q
      = if decide (q ∈ default default_queries queries)
        then Some (quick_value now s q) else None.
Proof.
  unfold quick_recommendations. rewrite quick_loop_run.
  eexists. split; [reflexivity|]. intros q.
  rewrite lookup_foldl_insert.
  now destruct (decide (q ∈ default default_queries queries)).
Qed.

Lemma test_loop_run (queries : list string) (responses : list TestResponse)
    (r : AnimeRecommender) :
  test_loop now responses queries (Some r)
  = (Ok (responses ++ map (test_value now (Some r)) queries), Some r).
Proof.
  revert responses. induction queries as [|q queries IH]; intros responses.
  - simpl. now rewrite app_nil_r.
  - simpl. unfold bind at 1.
    assert (Hstep : test_step now responses q (Some r)
                    = (Ok (responses ++ [test_value now (Some r) q]), Some r)).
    { unfold test_step, test_value, outcome, try_except, bind, on_recommender,
        ret.
      pose proof (get_recommendations_keeps_state q r) as H.
      destruct (Recommender.get_recommendations now q r) as [[res|e] r'];
        simpl in *; now subst. }
    rewrite Hstep, IH. now rewrite <- app_assoc.
Qed.

(** X6. [test_recommendation_system] raises [ValueError] when the pipeline has
    no recommender.  With one it never raises: it returns one response for
    each query, in the order of the queries, a query that fails giving an
    error response and the queries after it being run all the same. *)
Theorem test_recommendation_system_responses
    (test_queries : option (list string)) (s : option AnimeRecommender) :
  test_recommendation_system now test_queries s
  = match s with
    | None =>
        (Raise (mkExn ValueError
                  "Recommender not initialized. Run pipeline first."), s)
    | Some _ =>
        (Ok (default default_queries test_queries,
             map (test_value now s) (default default_queries test_queries)),
         s)
    end /\
  map response_query
    (map (test_value now s) (default default_queries test_queries))
  = default default_queries test_queries.
Proof.
  split.
  - unfold test_recommendation_system, bind, gets.
    destruct s as [r|]; [|reflexivity].
    now rewrite test_loop_run.
  - rewrite map_map. rewrite <- (map_id (default default_queries test_queries)) at 2.
    apply map_ext. intros q. unfold test_value.
    now destruct (outcome now s q).
Qed.

End Queries.

End QueriesSpec.

(** ** The recommendation engine: what its results hold *)

Module RecommenderResults.
Import VectorStore Recommender.




Local Arguments prefix : simpl never.

Section Previews.

Variable now : string.


End Previews.

Section Ratings.

Variable float_of_string : string -> option PyFloat.
Variable str_float : PyFloat -> string.

Lemma rate_documents_bounds (min_rating : PyFloat) (docs : list Document)
    (acc recs : list RatedMovie) :
  rate_documents float_of_string min_rating acc docs = Ok recs ->
  Forall (fun m => float_ge (rating m) min_rating = true) acc ->
  Forall (fun m => float_ge (rating m) min_rating = true) recs /\
  length recs <= length acc + length docs.
Proof.
  revert acc. induction docs as [|doc docs IH]; intros acc Hrun Hacc.
  - simpl in Hrun. injection Hrun as <-. split; [exact Hacc | lia].
  - simpl in Hrun.
    destruct (rate_document float_of_string min_rating acc doc) as [acc'|e]
      eqn:E; [|discriminate].
    assert (Hacc' : Forall (fun m => float_ge (rating m) min_rating = true) acc'
                    /\ length acc' <= S (length acc)).
    { unfold rate_document in E.
      destruct (rating_of float_of_string _) as [x|e]; [|discriminate].
      destruct (float_ge x min_rating) eqn:Hge; injection E as <-.
      - split.
        + apply Forall_app. split; [exact Hacc|]. constructor; [exact Hge|].
          constructor.
        + rewrite length_app. simpl. lia.
      - split; [exact Hacc | lia]. }
    destruct Hacc' as [HF Hlen].
    destruct (IH acc' Hrun HF) as [HF' Hlen'].
    split; [exact HF'|]. simpl. lia.
Qed.

(** X8. Whatever [get_recommendations_by_rating] returns, every movie in it
    has a rating that is at least [min_rating], and there are no more
    movies than the search returned entries. *)
Theorem ratings_meet_threshold (rec : AnimeRecommender)
    (search : string -> nat -> Result (list Document))
    (min_rating : PyFloat) (limit : nat) (docs : list Document)
    (recs : list RatedMovie) (st : AnimeRecommender) :
  vector_store rec = Some search ->
  search ("movies with rating " +:+ str_float min_rating +:+ " or higher") limit
  = Ok docs ->
  get_recommendations_by_rating float_of_string str_float min_rating limit rec
  = (Ok recs, st) ->
  Forall (fun m => float_ge (rating m) min_rating = true) recs /\
  length recs <= length docs.
Proof.
  intros Hvs Hsearch.
  unfold get_recommendations_by_rating, try_except, bind.
  rewrite (RecommenderSpec.get_similar_movies_run rec search) by exact Hvs.
  rewrite Hsearch. unfold call, raise.
  destruct (rate_documents float_of_string min_rating [] docs) as [recs'|e]
    eqn:E; [|discriminate].
  intros [= <- _].
  destruct (rate_documents_bounds min_rating docs [] recs' E) as [HF Hlen];
    [constructor|].
  split; [exact HF | exact Hlen].
Qed.

End Ratings.

Lemma foldl_genre_document (docs : list Document) (acc : list GenreMovie) :
  foldl genre_document acc docs
  = acc ++ flat_map (genre_document []) docs.
Proof.
  revert acc. induction docs as [|doc docs IH]; intros acc; simpl.
  - now rewrite app_nil_r.
  - rewrite IH. unfold genre_document at 1. now rewrite <- app_assoc.
Qed.

(** X9. [get_recommendations_by_genre] returns one movie for each entry the
    search returned, in the same order and whatever the entry holds: it
    raises on none and leaves none out, also when the entry names another
    genre or none; a field the entry lacks reads ["Unknown"]. *)
Theorem genre_recommendations_unfiltered (rec : AnimeRecommender)
    (search : string -> nat -> Result (list Document))
    (genre : string) (limit : nat) (docs : list Document) :
  vector_store rec = Some search ->
  search ("movies in " +:+ genre +:+ " genre with high rating") limit = Ok docs ->
  exists recs,
    get_recommendations_by_genre genre limit rec = (Ok recs, rec) /\
    length recs = length docs /\
    Forall2
      (fun doc m =>
         genre_genre m
         = default "Unknown" (_parse_movie_info (page_content doc) !! "genre") /\
         genre_title m
         = default "Unknown" (_parse_movie_info (page_content doc) !! "title"))
      docs recs.
Proof.
  intros Hvs Hsearch.
  unfold get_recommendations_by_genre, try_except, bind.
  rewrite (RecommenderSpec.get_similar_movies_run rec search) by exact Hvs.
  rewrite Hsearch. unfold ret. eexists. split; [reflexivity|].
  rewrite foldl_genre_document. simpl.
  clear. induction docs as [|doc docs [IH1 IH2]]; simpl.
  - split; [reflexivity | constructor].
  - split; [now rewrite IH1|]. constructor; [|exact IH2].
    split; reflexivity.
Qed.

End RecommenderResults.

(** ** The initialization of the engine *)

Module EngineSpec.
Import VectorStore VectorStoreSpec Engine.

Section Initialization.

Variable split_text : nat -> nat -> string -> list string.





End Initialization.

End EngineSpec.

(** ** The fields of a text *)

Module FieldsSpec.
Import Fields Recommender.

Local Arguments String.append : simpl nomatch.

Lemma append_assoc (a b c : string) : (a +:+ b) +:+ c = a +:+ (b +:+ c).
Proof. induction a as [|x a IH]; simpl; [reflexivity | now rewrite IH]. Qed.

Lemma rev_app_rev_app (t c d : string) :
  String.rev_app (String.rev_app t c) d = String.rev_app c (t +:+ d).
Proof.
  revert c d. induction t as [|a t IH]; intros c d; simpl; [reflexivity|].
  now rewrite IH.
Qed.

Lemma token_cons (t : string) :
  token t = true ->
  exists a t', t = String a t' /\ is_space a = false /\
               all_chars (fun a => negb (is_space a)) t' = true.
Proof.
  unfold token. destruct t as [|a t']; simpl; [discriminate|].
  intros [Ha Ht]%andb_true_iff. exists a, t'.
  repeat split; [now apply negb_true_iff | exact Ht].
Qed.

(** Reading a run of characters that are not white space. *)
Lemma split_go_run (t c s : string) :
  all_chars (fun a => negb (is_space a)) t = true ->
  split_go (Some c) (t +:+ s) = split_go (Some (String.rev_app t c)) s.
Proof.
  revert c. induction t as [|a t IH]; intros c Ht; simpl; [reflexivity|].
  simpl in Ht. apply andb_true_iff in Ht as [Ha Ht].
  apply negb_true_iff in Ha. rewrite Ha. simpl. now apply IH.
Qed.

Lemma split_go_token (t s : string) :
  token t = true ->
  split_go None (t +:+ s) = split_go (Some (String.rev t)) s.
Proof.
  intros (a & t' & -> & Ha & Ht)%token_cons. simpl. rewrite Ha. simpl.
  now rewrite split_go_run.
Qed.

Lemma split_go_space (c s : string) :
  split_go (Some c) (String " " s) = String.rev c :: split_go None s.
Proof. reflexivity. Qed.

Lemma rev_rev (t : string) : String.rev (String.rev t) = t.
Proof.
  unfold String.rev. rewrite rev_app_rev_app. simpl.
  induction t as [|a t IH]; simpl; [reflexivity | now rewrite IH].
Qed.

(** [split] gives back the words that [join] put together. *)
Lemma split_join (ws : list string) :
  forallb token ws = true -> split (join " " ws) = ws.
Proof.
  unfold split. induction ws as [|w ws IH]; intros Hws; [reflexivity|].
  simpl in Hws. apply andb_true_iff in Hws as [Hw Hws].
  destruct ws as [|w' ws].
  - simpl. replace w with (w +:+ "") at 1.
    + rewrite split_go_token by exact Hw. simpl. now rewrite rev_rev.
    + clear. induction w as [|a w IH]; simpl; [reflexivity | now rewrite IH].
  - change (join " " (w :: w' :: ws)) with (w +:+ " " +:+ join " " (w' :: ws)).
    rewrite split_go_token by exact Hw.
    change (" " +:+ join " " (w' :: ws))
      with (String " " (join " " (w' :: ws))).
    rewrite split_go_space, rev_rev, (IH Hws). reflexivity.
Qed.

Lemma join_app (us vs : list string) :
  us <> [] -> vs <> [] ->
  join " " (us ++ vs) = join " " us +:+ " " +:+ join " " vs.
Proof.
  intros Hus Hvs. induction us as [|u us IH]; [contradiction|].
  destruct us as [|u' us].
  - simpl. destruct vs; [contradiction | reflexivity].
  - change (join " " ((u :: u' :: us) ++ vs))
      with (u +:+ " " +:+ join " " ((u' :: us) ++ vs)).
    rewrite IH by discriminate.
    change (join " " (u :: u' :: us)) with (u +:+ " " +:+ join " " (u' :: us)).
    now rewrite !append_assoc.
Qed.

Lemma field_text_words (f : string * list string) :
  f.2 <> [] -> field_text f = join " " (field_words f).
Proof.
  intros Hne. unfold field_text, field_words.
  destruct f as [k [|w ws]]; [contradiction|]. simpl fst. simpl snd.
  change (join " " ((k +:+ ":") :: w :: ws))
    with ((k +:+ ":") +:+ " " +:+ join " " (w :: ws)).
  now rewrite append_assoc.
Qed.

Lemma well_formed_field_inv (f : string * list string) :
  well_formed_field f = true ->
  token f.1 = true /\ f.2 <> [] /\ forallb value_word f.2 = true.
Proof.
  unfold well_formed_field.
  intros [[Hk Hne]%andb_true_iff Hws]%andb_true_iff.
  repeat split; try assumption.
  apply negb_true_iff in Hne. now apply bool_decide_eq_false in Hne.
Qed.

Lemma fields_text_words (fields : list (string * list string)) :
  forallb well_formed_field fields = true ->
  fields_text fields = join " " (concat (map field_words fields)).
Proof.
  unfold fields_text. induction fields as [|f fields IH]; intros H;
    [reflexivity|].
  simpl in H. apply andb_true_iff in H as [Hf H].
  apply well_formed_field_inv in Hf as (_ & Hne & _).
  destruct fields as [|f' fields].
  - simpl. rewrite app_nil_r. now apply field_text_words.
  - change (join " " (map field_text (f :: f' :: fields)))
      with (field_text f +:+ " " +:+ join " " (map field_text (f' :: fields))).
    rewrite (IH H).
    change (concat (map field_words (f :: f' :: fields)))
      with (field_words f ++ concat (map field_words (f' :: fields))).
    rewrite join_app; [|discriminate|discriminate].
    now rewrite field_text_words.
Qed.

Lemma token_append (a b : string) :
  token a = true -> all_chars (fun a => negb (is_space a)) b = true ->
  token (a +:+ b) = true.
Proof.
  intros (x & a' & -> & Hx & Ha)%token_cons Hb. unfold token. simpl.
  rewrite Hx. simpl. clear Hx. induction a' as [|y a' IH]; simpl; [exact Hb|].
  simpl in Ha. apply andb_true_iff in Ha as [-> Ha]. simpl. now apply IH.
Qed.

Lemma field_words_tokens (fields : list (string * list string)) :
  forallb well_formed_field fields = true ->
  forallb token (concat (map field_words fields)) = true.
Proof.
  induction fields as [|f fields IH]; intros H; [reflexivity|].
  simpl in H. apply andb_true_iff in H as [Hf H].
  apply well_formed_field_inv in Hf as (Hk & _ & Hws).
  simpl. rewrite forallb_app, (IH H), andb_true_r.
  rewrite token_append by (exact Hk || reflexivity). simpl.
  apply forallb_forall. intros w Hw.
  rewrite forallb_forall in Hws. specialize (Hws w Hw).
  unfold value_word in Hws. now apply andb_true_iff in Hws as [-> _].
Qed.

Lemma ends_with_colon_append (k : string) : ends_with_colon (k +:+ ":") = true.
Proof.
  induction k as [|a k IH]; [reflexivity|]. simpl.
  destruct (k +:+ ":") eqn:E; [|exact IH].
  destruct k; discriminate.
Qed.

Lemma drop_last_append (k : string) : drop_last (k +:+ ":") = k.
Proof.
  induction k as [|a k IH]; [reflexivity|]. simpl.
  destruct (k +:+ ":") eqn:E; [destruct k; discriminate|].
  now rewrite IH.
Qed.

(** The loop of the parser over the words of one value. *)
Lemma parse_value_words (ws : list string) (i : gmap string string)
    (k : string) (cur : list string) :
  k <> "" ->
  forallb value_word ws = true ->
  foldl parse_step (mkParse i (Some k) cur) ws = mkParse i (Some k) (cur ++ ws).
Proof.
  intros Hk. revert cur. induction ws as [|w ws IH]; intros cur Hws; simpl.
  - now rewrite app_nil_r.
  - simpl in Hws. apply andb_true_iff in Hws as [Hw Hws].
    unfold value_word in Hw. apply andb_true_iff in Hw as [_ Hw].
    apply negb_true_iff in Hw. unfold parse_step at 2. rewrite Hw. simpl.
    apply String.eqb_neq in Hk. rewrite Hk.
    rewrite (IH _ Hws). now rewrite <- app_assoc.
Qed.

Lemma token_nonempty (t : string) : token t = true -> t <> "".
Proof. intros (a & t' & -> & _)%token_cons. discriminate. Qed.

(** The loop of the parser over the words of the fields: every field but
    the last is saved, the last is the current one. *)
Lemma parse_fields_words (fields : list (string * list string))
    (f : string * list string) (st : ParseState) :
  forallb well_formed_field (fields ++ [f]) = true ->
  foldl parse_step st (concat (map field_words (fields ++ [f])))
  = mkParse
      (foldl (fun m f => <[f.1 := join " " f.2]> m) (save_pair st) fields)
      (Some f.1) f.2.
Proof.
  revert st. induction fields as [|g fields IH]; intros st H.
  - simpl in *. rewrite andb_true_r in H.
    apply well_formed_field_inv in H as (Hk & Hne & Hws).
    rewrite app_nil_r. unfold parse_step at 2.
    rewrite ends_with_colon_append, drop_last_append.
    now rewrite parse_value_words by (try apply token_nonempty; assumption).
  - simpl in H. apply andb_true_iff in H as [Hg H].
    apply well_formed_field_inv in Hg as (Hk & Hne & Hws).
    simpl. rewrite foldl_app. unfold parse_step at 3.
    rewrite ends_with_colon_append, drop_last_append.
    rewrite parse_value_words by (try apply token_nonempty; assumption).
    rewrite (IH _ H). f_equal. f_equal.
    unfold save_pair at 1, key_and_value. simpl.
    destruct (g.2) eqn:E; [contradiction|].
    apply token_nonempty, String.eqb_neq in Hk. rewrite Hk. reflexivity.
Qed.

Lemma parse_fields_run (fields : list (string * list string)) :
  forallb well_formed_field fields = true ->
  _parse_movie_info (fields_text fields) = fields_dict fields.
Proof.
  intros H. unfold _parse_movie_info, fields_dict.
  rewrite (fields_text_words _ H), split_join by now apply field_words_tokens.
  destruct fields as [|f fields] using rev_ind; [reflexivity|]. clear IHfields.
  rewrite (parse_fields_words _ _ _ H). rewrite foldl_app. simpl.
  pose proof H as H'. rewrite forallb_app in H'.
  apply andb_true_iff in H' as [_ Hf]. simpl in Hf. rewrite andb_true_r in Hf.
  apply well_formed_field_inv in Hf as (Hk & Hne & _).
  unfold save_pair at 1, key_and_value. simpl.
  destruct (f.2) eqn:E; [contradiction|].
  apply token_nonempty, String.eqb_neq in Hk. rewrite Hk. reflexivity.
Qed.

(** X20. A text of well-formed fields is read back field by field: the
    dictionary [_parse_movie_info] returns holds each field's value, its
    words joined by single spaces, under the field's name. *)
Theorem parse_movie_info_fields (fields : list (string * list string)) :
  forallb well_formed_field fields = true ->
  _parse_movie_info (fields_text fields) = fields_dict fields.
Proof. exact (parse_fields_run fields). Qed.

Lemma parse_no_key (ws : list string) (i : gmap string string)
    (cur : list string) :
  forallb (fun w => negb (ends_with_colon w)) ws = true ->
  foldl parse_step (mkParse i None cur) ws = mkParse i None cur.
Proof.
  induction ws as [|w ws IH]; intros H; [reflexivity|].
  simpl in H. apply andb_true_iff in H as [Hw H].
  apply negb_true_iff in Hw. simpl. unfold parse_step at 2. rewrite Hw.
  simpl. now apply IH.
Qed.

(** X21. A text none of whose words ends in a colon has no field:
    [_parse_movie_info] returns the empty dictionary for it, whatever else
    the text holds. *)
Theorem parse_movie_info_no_field (text : string) :
  forallb (fun w => negb (ends_with_colon w)) (split text) = true ->
  _parse_movie_info text = ∅.
Proof.
  intros H. unfold _parse_movie_info. now rewrite parse_no_key.
Qed.

(** *** What [split] returns *)

Lemma all_chars_rev_app (p : ascii -> bool) (t c : string) :
  all_chars p (String.rev_app t c) = all_chars p t && all_chars p c.
Proof.
  revert c. induction t as [|a t IH]; intros c; simpl; [reflexivity|].
  rewrite IH. simpl. now rewrite andb_assoc, (andb_comm (all_chars p t)).
Qed.

Lemma rev_app_nonempty (t c : string) : c <> "" -> String.rev_app t c <> "".
Proof.
  revert c. induction t as [|a t IH]; intros c Hc; simpl; [exact Hc|].
  now apply IH.
Qed.

Lemma token_rev (c : string) :
  c <> "" -> all_chars (fun a => negb (is_space a)) c = true ->
  token (String.rev c) = true.
Proof.
  intros Hne Hc. unfold token. apply andb_true_iff. split.
  - apply negb_true_iff, String.eqb_neq. unfold String.rev.
    destruct c as [|a c]; [contradiction|]. simpl. now apply rev_app_nonempty.
  - unfold String.rev. rewrite all_chars_rev_app, Hc. reflexivity.
Qed.

Lemma split_go_tokens (s : string) (cur : option string) :
  (forall c, cur = Some c ->
     c <> "" /\ all_chars (fun a => negb (is_space a)) c = true) ->
  forallb token (split_go cur s) = true.
Proof.
  revert cur. induction s as [|a s IH]; intros cur Hcur; simpl.
  - destruct cur as [c|]; [|reflexivity]. simpl.
    destruct (Hcur c eq_refl) as [Hne Hc]. now rewrite token_rev.
  - destruct (is_space a) eqn:Ha.
    + rewrite forallb_app, IH by discriminate. rewrite andb_true_r.
      destruct cur as [c|]; [|reflexivity]. simpl.
      destruct (Hcur c eq_refl) as [Hne Hc]. now rewrite token_rev.
    + apply IH. intros c [= <-]. split; [discriminate|]. simpl. rewrite Ha.
      simpl. destruct cur as [c|]; [|reflexivity]. simpl.
      now destruct (Hcur c eq_refl).
Qed.

Lemma split_tokens (s : string) : forallb token (split s) = true.
Proof. apply split_go_tokens. discriminate. Qed.

(** *** Blank texts *)

Lemma rstrip_empty (s : string) : rstrip s = "" -> all_chars is_space s = true.
Proof.
  induction s as [|a s IH]; [reflexivity|]. simpl.
  destruct (rstrip s); [|discriminate].
  destruct (is_space a); [|discriminate]. intros _. now apply IH.
Qed.

Lemma lstrip_spaces (s : string) :
  all_chars is_space (lstrip s) = true -> all_chars is_space s = true.
Proof.
  induction s as [|a s IH]; [reflexivity|]. simpl.
  destruct (is_space a) eqn:Ha; [exact IH|]. simpl. now rewrite Ha.
Qed.

Lemma split_spaces (s : string) :
  all_chars is_space s = true -> split s = [].
Proof.
  unfold split. induction s as [|a s IH]; [reflexivity|]. simpl.
  intros [-> Hs]%andb_true_iff. simpl. now apply IH.
Qed.

Lemma strip_empty_split (s : string) : strip s = "" -> split s = [].
Proof.
  intros H. now apply split_spaces, lstrip_spaces, rstrip_empty.
Qed.

Lemma plain_text_inv (v : string) :
  plain_text v = true ->
  split v <> [] /\
  forallb value_word (split v) = true /\
  join " " (split v) = v.
Proof.
  unfold plain_text.
  intros [[Hne Hws]%andb_true_iff Hv]%andb_true_iff.
  apply negb_true_iff, bool_decide_eq_false in Hne.
  apply String.eqb_eq in Hv. repeat split; try assumption.
  apply forallb_forall. intros w Hw. unfold value_word.
  pose proof (split_tokens v) as Ht. rewrite forallb_forall in Ht.
  rewrite (Ht w Hw). rewrite forallb_forall in Hws. now apply Hws.
Qed.

Lemma lookup_fields_dict {A} (name : A -> string) (value : A -> list string)
    (l : list A) (m : gmap string string) (k : string) :
  (forall x y, x ∈ l -> y ∈ l -> name x = name y -> value x = value y) ->
  foldl (fun m f => <[f.1 := join " " f.2]> m) m
    (map (fun x => (name x, value x)) l) !! k
  = match list_find (fun x => name x = k) l with
    | Some (_, x) => Some (join " " (value x))
    | None => m !! k
    end.
Proof.
  revert m. induction l as [|x l IH]; intros m Hsame; [reflexivity|].
  simpl. rewrite IH by (intros; apply Hsame; now try right).
  destruct (decide (name x = k)) as [Hx|Hx].
  - destruct (list_find (λ x0 : A, name x0 = k) l) as [[i y]|] eqn:E; simpl.
    + apply list_find_Some in E as (Hy%list_elem_of_lookup_2 & Hk & _).
      f_equal. f_equal. symmetry. apply Hsame;
        [now left | now right | congruence].
    + rewrite <- Hx. apply lookup_insert_eq.
  - destruct (list_find (λ x0 : A, name x0 = k) l) as [[i y]|] eqn:E; simpl;
      [reflexivity|]. now apply lookup_insert_ne.
Qed.

Section CombinedInfo.

Import DataLoader.

Variable str_num : Q -> string.

(** X22. The recommender reads back what the data loader wrote.  For a row
    whose column names are words and whose present cells are plain text,
    [_parse_movie_info] finds in the row's [combined_info] text, under the
    name of each column, the text of the row's cell in that column, and
    nothing for a column whose cell is missing or that is not combined. *)
Theorem parse_combined_info (cols : list string) (row : gmap string Cell) :
  (forall col, col ∈ cols -> token col = true) ->
  (forall col, col ∈ cols -> isna (cell_of row col) = false ->
     plain_text (str_cell str_num (cell_of row col)) = true) ->
  forall col,
    _parse_movie_info (combined_info str_num cols row) !! col
    = if bool_decide (col ∈ cols) && negb (isna (cell_of row col))
      then Some (str_cell str_num (cell_of row col))
      else None.
Proof.
  intros Hcols Hplain col.
  set (v := fun col => str_cell str_num (cell_of row col)).
  set (kept := filter
                 (fun col => negb (isna (cell_of row col)) &&
                             negb (String.eqb (strip (v col)) "") = true)
                 cols).
  assert (Hkept : forall c, c ∈ kept <->
                            c ∈ cols /\ isna (cell_of row c) = false).
  { intros c. unfold kept. rewrite list_elem_of_filter. split.
    - intros [[Hna _]%andb_true_iff Hc]. split; [exact Hc|].
      now apply negb_true_iff.
    - intros [Hc Hna]. split; [|exact Hc]. rewrite Hna. simpl.
      apply negb_true_iff, String.eqb_neq. intros Hblank.
      apply strip_empty_split in Hblank.
      now destruct (plain_text_inv _ (Hplain c Hc Hna)) as [Hne _]. }
  assert (Htext : combined_info str_num cols row
                  = fields_text (map (fun c => (c, split (v c))) kept)).
  { unfold combined_info, fields_text. fold v. fold kept. f_equal.
    rewrite map_map. apply map_ext_in. intros c Hc%list_elem_of_In.
    apply Hkept in Hc as [Hc Hna]. unfold field_text. simpl.
    destruct (plain_text_inv _ (Hplain c Hc Hna)) as (_ & _ & Hv).
    fold (v c) in Hv. now rewrite Hv. }
  rewrite Htext, parse_fields_run.
  - unfold fields_dict. rewrite lookup_fields_dict by congruence.
    destruct (list_find (λ x, x = col) kept) as [[i c]|] eqn:E.
    + apply list_find_Some in E as (Hc%list_elem_of_lookup_2 & -> & _).
      apply Hkept in Hc as [Hc Hna]. rewrite bool_decide_true by exact Hc.
      rewrite Hna. simpl.
      destruct (plain_text_inv _ (Hplain col Hc Hna)) as (_ & _ & Hv).
      fold (v col) in Hv. now rewrite Hv.
    + rewrite lookup_empty.
      destruct (bool_decide (col ∈ cols)) eqn:Hc; [|reflexivity].
      destruct (isna (cell_of row col)) eqn:Hna; [reflexivity|]. exfalso.
      apply bool_decide_eq_true in Hc.
      assert (Hin : col ∈ kept) by now apply Hkept.
      rewrite list_find_None in E. rewrite Forall_forall in E.
      now apply (E col Hin).
  - apply forallb_forall. intros f Hf%list_elem_of_In.
    apply list_elem_of_fmap in Hf as (c & -> & Hc).
    apply Hkept in Hc as [Hc Hna]. unfold well_formed_field. simpl.
    destruct (plain_text_inv _ (Hplain c Hc Hna)) as (Hne & Hws & _).
    fold (v c) in Hne, Hws. rewrite (Hcols c Hc), Hws.
    rewrite bool_decide_false by exact Hne. reflexivity.
Qed.

End CombinedInfo.

End FieldsSpec.

(** ** The theorems at concrete inputs *)

Module Instances.
Import Examples.

(** A run whose second stage raises. *)
Lemma failed_vector_store_stage :
  Pipeline.raises_at loading_ok vector_store_fails recommender_ok false
    Pipeline.VectorStoreCreation
    (mkExn FileNotFoundError "CSV file not found")
    [] ["data_loading"; "vector_store_creation"] /\
  exists res p',
    Pipeline.run_complete_pipeline loading_ok vector_store_fails recommender_ok
      false (Pipeline.mkSt Pipeline.init_status (Pipeline.mkResults "" [] [] []) [])
    = (Ok res,
       Pipeline.mkSt p' res ["data_loading"; "vector_store_creation"]) /\
    Pipeline.pipeline_status res = "failed" /\
    Pipeline.errors res = ["CSV file not found"] /\
    Pipeline.steps_completed res = ["data_loading"] /\
    Pipeline.data_loading p' = true /\
    Pipeline.vector_store_creation p' = false.
Proof.
  assert (H : Pipeline.raises_at loading_ok vector_store_fails recommender_ok
                false Pipeline.VectorStoreCreation
                (mkExn FileNotFoundError "CSV file not found")
                [] ["data_loading"; "vector_store_creation"]).
  { simpl. eexists _, _. split; reflexivity. }
  split; [exact H|].
  destruct (PipelineSpec.run_complete_pipeline_failed_stage
              loading_ok vector_store_fails recommender_ok false
              Pipeline.VectorStoreCreation _ [] _ Pipeline.init_status
              (Pipeline.mkResults "" [] [] []) H)
    as (res & p' & Hrun & Hst & Herr & Hsteps & _ & _ & Hbefore & Hflag).
  exists res, p'. repeat split; try assumption.
  apply (Hbefore Pipeline.DataLoading). simpl. now left.
Defined.

(** A table without duplicates keeps its rows. *)
Lemma remove_duplicates_without_duplicate :
  DataLoader.distinct_keys (DataLoader.key_columns without_duplicate)
    (DataLoader.rows without_duplicate) = true /\
  DataLoader.len (DataLoader._remove_duplicates without_duplicate)
  = DataLoader.len without_duplicate.
Proof.
  assert (H : DataLoader.distinct_keys (DataLoader.key_columns without_duplicate)
                (DataLoader.rows without_duplicate) = true)
    by (vm_compute; reflexivity).
  split; [exact H|].
  apply (proj1 (DataLoaderSpec.remove_duplicates_keeps_first without_duplicate)).
  exact H.
Defined.

(** Of two rows that differ in [genre_list] alone, the first is kept. *)
Example remove_duplicates_with_duplicate :
  map fst (DataLoader.rows (DataLoader._remove_duplicates with_duplicate))
  = [0; 1].
Proof. vm_compute. reflexivity. Qed.




(** A readable index and a request for an incremental update. *)
Lemma incremental_update_on_old_index :
  let st0 :=
    VectorStore.mkSt default_store (world_with short_corpus old_index None) in
  fst (VectorStore.load_existing_vector_store st0)
  = Ok (Some (VectorStore.mkChroma VectorStore.HuggingFaceEmbeddings)) /\
  fst (VectorStore.build_vector_store window_split false true st0)
  = Raise (mkExn AttributeError
             "'AnimeVectorStore' object has no attribute '_incremental_update'").
Proof.
  intros st0.
  assert (H : VectorStore.load_existing_vector_store st0
              = (Ok (Some (VectorStore.mkChroma VectorStore.HuggingFaceEmbeddings)),
                 snd (VectorStore.load_existing_vector_store st0)))
    by reflexivity.
  split; [reflexivity|].
  unfold st0 in *.
  rewrite (VectorStoreSpec.incremental_update_raises window_split
             default_store (world_with short_corpus old_index None) _ _ H).
  reflexivity.
Defined.

(** A response with the input alone. *)
Lemma placeholder_for_silent_chain :
  Recommender.retrieval_chain silent_recommender = Some silent_chain /\
  silent_chain "space adventure" = Ok {[ "input" := "space adventure" ]} /\
  fst (Recommender.get_recommendations "2026-01-01T00:00:00" "space adventure"
         silent_recommender)
  = Ok (Recommender.mkRecommendations "space adventure"
          (Recommender.format_answer "No recommendations generated")
          [Recommender.mkSimilar "title: akira genre: action..." 0]
          "2026-01-01T00:00:00" "gpt-3.5-turbo").
Proof.
  split; [reflexivity|]. split; [reflexivity|].
  rewrite (RecommenderSpec.get_recommendations_placeholder
             "2026-01-01T00:00:00" silent_recommender "space adventure"
             silent_chain unrated_search {[ "input" := "space adventure" ]}
             [VectorStore.mkDocument "title: akira genre: action" 0]);
    reflexivity.
Defined.

(** C5 as stated fails there: the recommendations text is not the text
    ["no recommendations generated"]; and a response that has no
    ["answer"] but a ["result"] gets no placeholder at all. *)
Lemma placeholder_is_not_the_claimed_text :
  (exists r,
     fst (Recommender.get_recommendations "2026-01-01T00:00:00"
            "space adventure" silent_recommender) = Ok r /\
     Recommender.recommendations r <> "no recommendations generated" /\
     Recommender.recommendations r
     = Recommender.format_answer "No recommendations generated") /\
  (exists response r,
     result_chain "space adventure" = Ok response /\
     response !! "answer" = None /\
     fst (Recommender.get_recommendations "2026-01-01T00:00:00"
            "space adventure" result_recommender) = Ok r /\
     Recommender.recommendations r = Recommender.format_answer "Watch Akira.").
Proof.
  split.
  - eexists. split; [vm_compute; reflexivity|]. split; [discriminate|reflexivity].
  - eexists _, _. split; [reflexivity|]. split; [vm_compute; reflexivity|].
    split; [vm_compute; reflexivity|]. reflexivity.
Qed.

(** A retrieved entry whose rating is the text ["Unknown"]. *)
Lemma unknown_rating_raises :
  let doc := VectorStore.mkDocument "title: paprika rating: Unknown" 1 in
  Recommender._parse_movie_info (VectorStore.page_content doc) !! "rating"
  = Some "Unknown" /\
  float_of_decimal "Unknown" = None /\
  exists msg,
    Recommender.get_recommendations_by_rating float_of_decimal string_of_float
      (Recommender.Finite 8) 5 unknown_recommender
    = (Raise (mkExn ValueError msg), unknown_recommender).
Proof.
  intros doc.
  assert (H1 : Recommender._parse_movie_info (VectorStore.page_content doc)
               !! "rating" = Some "Unknown") by (vm_compute; reflexivity).
  split; [exact H1|]. split; [reflexivity|].
  apply (proj1 (RecommenderSpec.rating_conversion_unguarded float_of_decimal
                  string_of_float unknown_recommender unknown_search
                  (Recommender.Finite 8) 5 _ eq_refl eq_refl) doc "Unknown").
  - simpl. right. left. reflexivity.
  - exact H1.
  - reflexivity.
Defined.

(** C10 as stated fails at [min_rating = 0]: the entry without a rating is
    not filtered out, it is returned with the rating 0. *)
Lemma absent_rating_kept_at_zero :
  fst (Recommender.get_recommendations_by_rating float_of_decimal
         string_of_float (Recommender.Finite 0) 5 silent_recommender)
  = Ok [Recommender.mkRated "akira" "action" (Recommender.Finite 0)
          "Unknown" "Unknown"].
Proof. vm_compute. reflexivity. Qed.

End Instances.
(** ** More theorems at concrete inputs *)

Module ScenarioChecks.
Import Examples Scenarios.

(** A run whose three stages return. *)
Lemma completed_run :
  loading_ok [] = (Ok "Shape: (3, 9)", ["data_loading"]) /\
  vector_store_ok false ["data_loading"]
  = (Ok "2 documents", ["data_loading"; "vector_store_creation"]) /\
  recommender_ok ["data_loading"; "vector_store_creation"]
  = (Ok "initialized",
     ["data_loading"; "vector_store_creation"; "recommender_initialization"]) /\
  fst (Pipeline.run_complete_pipeline loading_ok vector_store_ok recommender_ok
         false
         (Pipeline.mkSt Pipeline.init_status (Pipeline.mkResults "" [] [] []) []))
  = Ok (Pipeline.mkResults "completed"
          ["data_loading"; "vector_store_creation"; "recommender_initialization"]
          []
          [("data_loading", "Shape: (3, 9)"); ("vector_store", "2 documents");
           ("recommender", "initialized")]).
Proof.
  repeat (split; [reflexivity|]).
  rewrite (PipelineRuns.run_complete_pipeline_completed loading_ok
             vector_store_ok recommender_ok false Pipeline.init_status
             (Pipeline.mkResults "" [] [] []) [] _ _ _ _ _ _
             eq_refl eq_refl eq_refl).
  reflexivity.
Defined.

(** A second run that fails at the vector store, after a completed one:
    the flag of the recommender stays set. *)
Lemma failed_run_keeps_recommender_flag :
  Pipeline.raises_at loading_ok vector_store_fails recommender_ok false
    Pipeline.VectorStoreCreation
    (mkExn FileNotFoundError "CSV file not found")
    [] ["data_loading"; "vector_store_creation"] /\
  Pipeline.recommender_initialization
    (Pipeline.self_status
       (snd (Pipeline.run_complete_pipeline loading_ok vector_store_fails
               recommender_ok false
               (Pipeline.mkSt completed_status
                  (Pipeline.mkResults "" [] [] []) []))))
  = true.
Proof.
  assert (H : Pipeline.raises_at loading_ok vector_store_fails recommender_ok
                false Pipeline.VectorStoreCreation
                (mkExn FileNotFoundError "CSV file not found")
                [] ["data_loading"; "vector_store_creation"]).
  { simpl. eexists _, _. split; reflexivity. }
  split; [exact H|].
  apply (PipelineRuns.run_complete_pipeline_keeps_later_flags loading_ok
           vector_store_fails recommender_ok false
           Pipeline.VectorStoreCreation _ [] _ completed_status
           (Pipeline.mkResults "" [] [] []) H
           Pipeline.RecommenderInitialization).
  simpl. now left.
Defined.

(** The fallback, then a world with a credential. *)
Lemma fallback_survives_new_key :
  let w := world_with short_corpus VectorStore.NoDirectory None in
  let w' := world_with short_corpus VectorStore.NoDirectory (Some "sk-test") in
  let o1 :=
    VectorStore.self
      (snd (VectorStore.initialize_embeddings (VectorStore.mkSt default_store w))) in
  VectorStore.embedding_model default_store = "openai" /\
  VectorStore.key_missing (VectorStore.OPENAI_API_KEY w) = true /\
  VectorStore.embeddings o1 = Some VectorStore.HuggingFaceEmbeddings /\
  VectorStore.initialize_embeddings (VectorStore.mkSt o1 w')
  = (Ok tt, VectorStore.mkSt o1 w').
Proof.
  intros w w' o1. split; [reflexivity|]. split; [reflexivity|].
  destruct (VectorStoreFacts.fallback_is_sticky default_store w w'
              eq_refl eq_refl) as (H1 & _ & H2).
  split; [exact H1 | exact H2].
Defined.



(** A readable index, built by another provider than the object selects,
    with the credential configured. *)
Lemma old_index_reused :
  let w := world_with short_corpus old_index (Some "sk-test") in
  VectorStore.persist_dir w = old_index /\
  VectorStore.provider_of default_store w
  = Some (VectorStore.OpenAIEmbeddings "sk-test") /\
  exists o,
    VectorStore.build_vector_store window_split false false
      (VectorStore.mkSt default_store w)
    = (Ok (VectorStore.mkChroma (VectorStore.OpenAIEmbeddings "sk-test")),
       VectorStore.mkSt o w).
Proof.
  intros w. split; [reflexivity|]. split; [reflexivity|].
  eexists.
  exact (VectorStoreFacts.readable_index_is_reused window_split default_store
           w (VectorStore.OpenAIEmbeddings "sk-test") None _
           eq_refl eq_refl).
Defined.



(** A hexadecimal digest written and read back. *)
Lemma digest_round_trip :
  VectorStore.hash_dir_exists (VectorStore.mkHashFile true None) = true /\
  all_chars (fun a => negb (is_space a)) "9e107d9d372bb6826bd81d3542a419d6"
  = true /\
  fst ((VectorStore._store_csv_hash "9e107d9d372bb6826bd81d3542a419d6" ;;;
        VectorStore._get_stored_hash) (VectorStore.mkHashFile true None))
  = Ok (Some "9e107d9d372bb6826bd81d3542a419d6").
Proof.
  split; [reflexivity|]. split; [reflexivity|].
  now rewrite (proj1 (VectorStoreFacts.stored_hash_round_trip
                        (VectorStore.mkHashFile true None)
                        "9e107d9d372bb6826bd81d3542a419d6") eq_refl eq_refl).
Defined.


(** Two rated entries and a threshold between their ratings. *)
Lemma ratings_above_eight :
  Recommender.vector_store rated_recommender = Some rated_search /\
  exists recs,
    Recommender.get_recommendations_by_rating float_of_decimal string_of_float
      (Recommender.Finite 8) 5 rated_recommender
    = (Ok recs, rated_recommender) /\
    length recs = 1 /\
    Forall (fun m => Recommender.float_ge (Recommender.rating m)
                       (Recommender.Finite 8) = true) recs.
Proof.
  split; [reflexivity|].
  eexists. split; [vm_compute; reflexivity|]. split; [reflexivity|].
  exact (proj1 (RecommenderResults.ratings_meet_threshold float_of_decimal
                  string_of_float rated_recommender rated_search
                  (Recommender.Finite 8) 5 _ _ rated_recommender
                  eq_refl eq_refl eq_refl)).
Defined.

(** A genre the entry found does not have. *)
Lemma genre_without_match :
  Recommender.vector_store silent_recommender = Some unrated_search /\
  exists recs,
    Recommender.get_recommendations_by_genre "drama" 5 silent_recommender
    = (Ok recs, silent_recommender) /\
    map Recommender.genre_genre recs = ["action"].
Proof.
  split; [reflexivity|].
  destruct (RecommenderResults.genre_recommendations_unfiltered
              silent_recommender unrated_search "drama" 5 _ eq_refl eq_refl)
    as (recs & Hrun & _).
  exists recs. split; [exact Hrun|].
  injection Hrun as <-. vm_compute. reflexivity.
Defined.



(** The text of three fields, read back. *)
Lemma akira_fields_read_back :
  forallb Fields.well_formed_field akira_fields = true /\
  Fields.fields_text akira_fields
  = "title: akira genre: action, sci-fi rating: 8.0" /\
  Recommender._parse_movie_info "title: akira genre: action, sci-fi rating: 8.0"
  = {[ "title" := "akira"; "genre" := "action, sci-fi"; "rating" := "8.0" ]}.
Proof.
  split; [reflexivity|]. split; [reflexivity|].
  change "title: akira genre: action, sci-fi rating: 8.0"
    with (Fields.fields_text akira_fields).
  rewrite (FieldsSpec.parse_movie_info_fields akira_fields eq_refl).
  apply map_eq. intros k. vm_compute.
  reflexivity.
Defined.

(** A text without a field name. *)
Lemma text_without_field :
  forallb (fun w => negb (ends_with_colon w)) (split "akira 1988 action") = true /\
  Recommender._parse_movie_info "akira 1988 action" = ∅.
Proof.
  split; [reflexivity|].
  exact (FieldsSpec.parse_movie_info_no_field "akira 1988 action" eq_refl).
Defined.

(** A row of a cleaned table, from the data loader to the recommender. *)
Lemma akira_row_read_back :
  let cols := ["title"; "rating"; "year"] in
  let text := DataLoader.combined_info string_of_decimal cols akira_row in
  text = "title: akira the movie rating: 8.0" /\
  Recommender._parse_movie_info text !! "title" = Some "akira the movie" /\
  Recommender._parse_movie_info text !! "rating" = Some "8.0" /\
  Recommender._parse_movie_info text !! "year" = None.
Proof.
  intros cols text.
  assert (Hcols : forall col, col ∈ cols -> Fields.token col = true).
  { intros col H. unfold cols in H.
    rewrite !elem_of_cons, elem_of_nil in H.
    destruct H as [->|[->|[->|[]]]]; reflexivity. }
  assert (Hplain : forall col, col ∈ cols ->
            DataLoader.isna (DataLoader.cell_of akira_row col) = false ->
            Fields.plain_text
              (DataLoader.str_cell string_of_decimal
                 (DataLoader.cell_of akira_row col)) = true).
  { intros col H. unfold cols in H.
    rewrite !elem_of_cons, elem_of_nil in H.
    destruct H as [->|[->|[->|[]]]]; vm_compute;
      first [reflexivity | discriminate]. }
  split; [vm_compute; reflexivity|].
  unfold text.
  rewrite !(FieldsSpec.parse_combined_info string_of_decimal cols akira_row
              Hcols Hplain).
  repeat split; vm_compute; reflexivity.
Defined.

(** A rating column with one missing value. *)
Lemma one_missing_rating_filled :
  NoDup (DataLoader.columns one_missing) /\
  "rating" ∈ DataLoader.columns one_missing /\
  DataLoader.Num 8 ∈ DataLoader.get_col "rating" one_missing /\
  Forall (fun c => DataLoader.isna c = false)
    (DataLoader.get_col "rating" (DataLoader._handle_missing_values one_missing)).
Proof.
  assert (Hnd : NoDup (DataLoader.columns one_missing)).
  { simpl. apply NoDup_cons. split; [|apply NoDup_singleton].
    rewrite list_elem_of_singleton. discriminate. }
  assert (Hcol : "rating" ∈ DataLoader.columns one_missing)
    by (simpl; set_solver).
  assert (Hin : DataLoader.Num 8 ∈ DataLoader.get_col "rating" one_missing)
    by (vm_compute; left).
  split; [exact Hnd|]. split; [exact Hcol|]. split; [exact Hin|].
  apply (CleanColumnsSpec.handle_missing_values_complete one_missing "rating"
           Hnd Hcol).
  exists (DataLoader.Num 8). split; [exact Hin | reflexivity].
Defined.

(** A missing title beside a title, and a genre column without values. *)
Lemma sparse_placeholders :
  NoDup (DataLoader.columns sparse) /\
  DataLoader.get_col "title" sparse !! 1 = Some DataLoader.NaN /\
  DataLoader.get_col "genre" sparse !! 1 = Some DataLoader.NaN /\
  DataLoader.get_col "title"
    (DataLoader._clean_text_columns string_of_decimal
       (DataLoader._handle_missing_values sparse)) !! 1
  = Some (DataLoader.Str "unknown") /\
  DataLoader.get_col "genre"
    (DataLoader._clean_text_columns string_of_decimal
       (DataLoader._handle_missing_values sparse)) !! 1
  = Some (DataLoader.Str "Unknown").
Proof.
  assert (Hnd : NoDup (DataLoader.columns sparse)).
  { simpl. apply NoDup_cons. split; [|apply NoDup_singleton].
    rewrite list_elem_of_singleton. discriminate. }
  split; [exact Hnd|]. split; [reflexivity|]. split; [reflexivity|]. split.
  - apply (proj1 (CleanColumnsSpec.missing_text_placeholder string_of_decimal
                    sparse "title" 1 Hnd ltac:(set_solver)
                    ltac:(simpl; set_solver) eq_refl)).
    exists "Akira". vm_compute. left.
  - apply (proj2 (CleanColumnsSpec.missing_text_placeholder string_of_decimal
                    sparse "genre" 1 Hnd ltac:(set_solver)
                    ltac:(simpl; set_solver) eq_refl)).
    vm_compute. repeat constructor.
Defined.


(** A table of two records and four ids. *)
Lemma info_of_two_records :
  DataLoader.len without_duplicate = 2 /\
  AnimeInfo.get_anime_info string_of_Z without_duplicate 2
  = AnimeInfo.RaisesValueError "Anime ID 2 is out of range" /\
  (exists info,
     AnimeInfo.get_anime_info string_of_Z without_duplicate 1
     = AnimeInfo.Returns info) /\
  AnimeInfo.get_anime_info string_of_Z without_duplicate (-1)
  = AnimeInfo.get_anime_info string_of_Z without_duplicate 1 /\
  AnimeInfo.get_anime_info string_of_Z without_duplicate (-3)
  = AnimeInfo.RaisesIndexError "single positional indexer is out-of-bounds".
Proof.
  split; [reflexivity|].
  split.
  { destruct (RecordsSpec.get_anime_info_bounds string_of_Z without_duplicate 2)
      as (H & _).
    rewrite H by (vm_compute; discriminate). vm_compute. reflexivity. }
  split.
  { destruct (RecordsSpec.get_anime_info_bounds string_of_Z without_duplicate 1)
      as (_ & H & _).
    apply H. split; vm_compute; [discriminate | reflexivity]. }
  split.
  { destruct (RecordsSpec.get_anime_info_bounds string_of_Z without_duplicate (-1))
      as (_ & _ & H & _).
    apply H. split; vm_compute; [discriminate | reflexivity]. }
  destruct (RecordsSpec.get_anime_info_bounds string_of_Z without_duplicate (-3))
    as (_ & _ & _ & H).
  apply H. vm_compute. reflexivity.
Defined.

End ScenarioChecks.

